(** * Pistachio Watch: the allowance window, the search handler and the
      refresh cycle of [src/components/Frame.tsx]

    The component keeps its data in React state (the active view, the
    user's own stats, the leaderboard, the search box, the search result
    and one error message shared by all of them) and derives one displayed
    number, the remaining daily allowance, from a [Date].  The development
    has three parts:

    - [JsDate]: the time-value arithmetic of ECMAScript [Date] that
      [calculateDailyAllowance] relies on (UTC getters, [setUTCHours],
      [TimeClip]);
    - [JsParse]: [parseInt] on the search box's string;
    - [Frame]: the component state, the effect monad of its asynchronous
      handlers, and the handlers themselves: [handleSearch],
      [loadInitialData] and the view buttons.

    The properties follow the definitions, in the same order. *)

From Stdlib Require Import ZArith Lia Bool List String Ascii.
Import ListNotations.

Local Open Scope Z_scope.

(** ** ECMAScript time values *)

Module JsDate.

(** A JavaScript number that is either an integer or [NaN].  Every number
    the allowance code touches is an integer time value, a calendar field
    or a configuration constant, all far below 2^53, where doubles are
    exact. *)
Definition Number := option Z.

Definition NaN : Number := None.

(** A [Date] object is its time value: milliseconds since the epoch, or
    [NaN] for an Invalid Date. *)
Definition Date := Number.

Definition msPerSecond : Z := 1000.
Definition msPerMinute : Z := 60000.
Definition msPerHour : Z := 3600000.
Definition msPerDay : Z := 86400000.

(** The largest magnitude [TimeClip] lets through: 8.64e15 ms, one hundred
    million days on either side of the epoch. *)
Definition maxTime : Z := 8640000000000000.

Definition Day (t : Z) : Z := t / msPerDay.

Definition TimeWithinDay (t : Z) : Z := t mod msPerDay.

Definition DaysInYear (y : Z) : Z :=
  if negb (y mod 4 =? 0) then 365
  else if negb (y mod 100 =? 0) then 366
  else if negb (y mod 400 =? 0) then 365
  else 366.

Definition DayFromYear (y : Z) : Z :=
  365 * (y - 1970) + (y - 1969) / 4 - (y - 1901) / 100 + (y - 1601) / 400.

Definition TimeFromYear (y : Z) : Z := msPerDay * DayFromYear y.

(** ECMAScript defines [YearFromTime t] as the largest [y] with
    [TimeFromYear y <= t].  The mean Gregorian year has 146097/400 days, so
    the year is within one of the estimate below; [YearFromTime_spec]
    proves that the result is the one ECMAScript asks for. *)
Definition YearFromDay (d : Z) : Z :=
  let y := 1970 + (400 * d) / 146097 in
  if DayFromYear (y + 1) <=? d then y + 1
  else if DayFromYear y <=? d then y
  else y - 1.

Definition YearFromTime (t : Z) : Z := YearFromDay (Day t).

Definition InLeapYear (t : Z) : Z :=
  if DaysInYear (YearFromTime t) =? 366 then 1 else 0.

Definition DayWithinYear (t : Z) : Z :=
  Day t - DayFromYear (YearFromTime t).

Definition MonthFromTime (t : Z) : Z :=
  let d := DayWithinYear t in
  let leap := InLeapYear t in
  if d <? 31 then 0
  else if d <? 59 + leap then 1
  else if d <? 90 + leap then 2
  else if d <? 120 + leap then 3
  else if d <? 151 + leap then 4
  else if d <? 181 + leap then 5
  else if d <? 212 + leap then 6
  else if d <? 243 + leap then 7
  else if d <? 273 + leap then 8
  else if d <? 304 + leap then 9
  else if d <? 334 + leap then 10
  else 11.

Definition DateFromTime (t : Z) : Z :=
  let d := DayWithinYear t in
  let leap := InLeapYear t in
  match MonthFromTime t with
  | 0 => d + 1
  | 1 => d - 30
  | 2 => d - 58 - leap
  | 3 => d - 89 - leap
  | 4 => d - 119 - leap
  | 5 => d - 150 - leap
  | 6 => d - 180 - leap
  | 7 => d - 211 - leap
  | 8 => d - 242 - leap
  | 9 => d - 272 - leap
  | 10 => d - 303 - leap
  | _ => d - 333 - leap
  end.

Definition HourFromTime (t : Z) : Z := (t / msPerHour) mod 24.

Definition MakeTime (hour min sec ms : Z) : Z :=
  hour * msPerHour + min * msPerMinute + sec * msPerSecond + ms.

Definition MakeDate (day time : Z) : Z := day * msPerDay + time.

Definition TimeClip (time : Z) : Number :=
  if Z.abs time >? maxTime then NaN else Some time.

(** [new Date(value)] for a [value] that is itself a [Date]: a fresh object
    with the same time value. *)
Definition newDate (value : Date) : Date := value.

Definition getUTCFullYear (d : Date) : Number := option_map YearFromTime d.
Definition getUTCMonth (d : Date) : Number := option_map MonthFromTime d.
Definition getUTCDate (d : Date) : Number := option_map DateFromTime d.
Definition getUTCHours (d : Date) : Number := option_map HourFromTime d.

(** [d.setUTCHours(hour, min, sec, ms)]: the new time value of [d].  The
    day is kept and the time within the day replaced; an Invalid Date
    stays invalid, and a result out of range becomes one. *)
Definition setUTCHours (d : Date) (hour min sec ms : Z) : Date :=
  match d with
  | None => NaN
  | Some t => TimeClip (MakeDate (Day t) (MakeTime hour min sec ms))
  end.

(** [a !== b] on numbers: [NaN] is different from everything, itself
    included. *)
Definition strictNe (a b : Number) : bool :=
  match a, b with
  | Some x, Some y => negb (x =? y)
  | _, _ => true
  end.

Definition sub (a b : Number) : Number :=
  match a, b with
  | Some x, Some y => Some (x - y)
  | _, _ => NaN
  end.

Definition mul (a b : Number) : Number :=
  match a, b with
  | Some x, Some y => Some (x * y)
  | _, _ => NaN
  end.

(** [Math.max(a, b)]: [NaN] if either argument is. *)
Definition Math_max (a b : Number) : Number :=
  match a, b with
  | Some x, Some y => Some (Z.max x y)
  | _, _ => NaN
  end.

(** A time value a [Date] can hold. *)
Definition validTime (t : Z) : Prop := - maxTime <= t <= maxTime.

(** The UTC calendar date of a time value: year, month (0-11), day of the
    month (1-31). *)
Definition utcDate (t : Z) : Z * Z * Z :=
  (YearFromTime t, MonthFromTime t, DateFromTime t).

Definition sameUtcDate (a b : Z) : bool :=
  let '(ya, ma, da) := utcDate a in
  let '(yb, mb, db) := utcDate b in
  (ya =? yb) && (ma =? mb) && (da =? db).

(** [Date.UTC(year, month, day, hour)] for in-range fields, used to write
    instants down in examples. *)
Definition utc (year month day hour : Z) : Z :=
  let leap := if DaysInYear year =? 366 then 1 else 0 in
  let before :=
    match month with
    | 0 => 0 | 1 => 31 | 2 => 59 + leap | 3 => 90 + leap
    | 4 => 120 + leap | 5 => 151 + leap | 6 => 181 + leap
    | 7 => 212 + leap | 8 => 243 + leap | 9 => 273 + leap
    | 10 => 304 + leap | _ => 334 + leap
    end in
  MakeDate (DayFromYear year + before + (day - 1)) (MakeTime hour 0 0 0).

End JsDate.

Import JsDate.

(** ** [parseInt] *)

Module JsParse.

Local Open Scope string_scope.
Local Open Scope Z_scope.

(** Strings are sequences of code units; an [ascii] stands for the code
    unit of the same number, so the model covers code units 0-255.  The
    white space [parseInt] skips is then TAB, LF, VT, FF, CR, SP and
    NBSP. *)
Definition isWhiteSpace (c : ascii) : bool :=
  match nat_of_ascii c with
  | 9%nat | 10%nat | 11%nat | 12%nat | 13%nat | 32%nat | 160%nat => true
  | _ => false
  end.

Fixpoint trimStart (s : string) : string :=
  match s with
  | String c rest => if isWhiteSpace c then trimStart rest else s
  | EmptyString => s
  end.

(** The value of a code unit as a digit: 0-9, then a-z and A-Z for
    10-35. *)
Definition digitValue (c : ascii) : option Z :=
  let n := Z.of_nat (nat_of_ascii c) in
  if (48 <=? n) && (n <=? 57) then Some (n - 48)
  else if (97 <=? n) && (n <=? 122) then Some (n - 87)
  else if (65 <=? n) && (n <=? 90) then Some (n - 55)
  else None.

(** The digits of the longest prefix of [s] made of radix-[R] digits. *)
Fixpoint radixDigits (R : Z) (s : string) : list Z :=
  match s with
  | String c rest =>
      match digitValue c with
      | Some v => if v <? R then v :: radixDigits R rest else []
      | None => []
      end
  | EmptyString => []
  end.

(** The mathematical integer a sequence of radix-[R] digits denotes
    (ECMAScript's [mathInt]); it becomes a Number only through
    [roundToDouble] below. *)
Definition mathInt (R : Z) (digits : list Z) : Z :=
  fold_left (fun acc v => acc * R + v) digits 0.

(** The Number values [parseInt] can return, and an identifier can be:
    an integer that a double holds exactly, an infinity, or [NaN]. *)
Inductive IntegerNumber :=
| Finite (n : Z)
| Infinity (negative : bool)
| NotANumber.

(** The Number value of a mathematical integer: the nearest double, ties
    to the even significand, and an infinity from 2^1024 on.  Below 2^53
    every integer is a double; from there on a double is a 53-bit
    significand times a power of two. *)
Definition roundToDouble (m : Z) : IntegerNumber :=
  let a := Z.abs m in
  if a <? 2 ^ 53 then Finite m
  else
    let quantum := 2 ^ (Z.log2 a - 52) in
    let significand := a / quantum in
    let rest := a mod quantum in
    let up := (quantum <? 2 * rest)
              || ((quantum =? 2 * rest) && Z.odd significand) in
    let rounded := (if up then significand + 1 else significand) * quantum in
    if 2 ^ 1024 <=? rounded then Infinity (m <? 0)
    else Finite (Z.sgn m * rounded).

(** [parseInt(string)] with no radix argument, by the steps of the
    ECMAScript algorithm: skip leading white space, take a sign, switch
    to radix 16 on a [0x] or [0X] prefix, read digits up to the first
    code unit that is not one, answer [NaN] when there is none, and
    otherwise the Number value of the signed integer read.  All the
    digits count, as in the engines that read them all; ECMAScript lets
    an implementation ignore decimal digits after the twentieth. *)
Definition parseInt (inputString : string) : IntegerNumber :=
  let s := trimStart inputString in
  let sign := match s with String "-" _ => -1 | _ => 1 end in
  let s := match s with
           | String "+" rest | String "-" rest => rest
           | _ => s
           end in
  let '(R, s) := match s with
                 | String "0" (String "x" rest)
                 | String "0" (String "X" rest) => (16, rest)
                 | _ => (10, s)
                 end in
  match radixDigits R s with
  | [] => NotANumber
  | digits => roundToDouble (sign * mathInt R digits)
  end.

Definition isNaN (n : IntegerNumber) : bool :=
  match n with NotANumber => true | _ => false end.

(** [!s] on a string: only the empty string is falsy. *)
Definition isEmpty (s : string) : bool :=
  match s with EmptyString => true | _ => false end.

(** A decimal digit, and the number a string of decimal digits
    denotes. *)
Definition isDecimalDigit (c : ascii) : bool :=
  let n := Z.of_nat (nat_of_ascii c) in (48 <=? n) && (n <=? 57).

Fixpoint allDecimal (s : string) : bool :=
  match s with
  | String c rest => isDecimalDigit c && allDecimal rest
  | EmptyString => true
  end.

Fixpoint decimalValueFrom (acc : Z) (s : string) : Z :=
  match s with
  | String c rest =>
      decimalValueFrom (10 * acc + (Z.of_nat (nat_of_ascii c) - 48)) rest
  | EmptyString => acc
  end.

Definition decimalValue (s : string) : Z := decimalValueFrom 0 s.

(** [s] starts with something other than a decimal digit (or is empty). *)
Definition startsNonDigit (s : string) : bool :=
  match s with
  | String c _ => negb (isDecimalDigit c)
  | EmptyString => true
  end.

Fixpoint allWhiteSpace (s : string) : bool :=
  match s with
  | String c rest => isWhiteSpace c && allWhiteSpace rest
  | EmptyString => true
  end.

(** An optional sign, as written and as a factor. *)
Inductive Sign := NoSign | PlusSign | MinusSign.

Definition signString (sg : Sign) : string :=
  match sg with NoSign => "" | PlusSign => "+" | MinusSign => "-" end.

Definition signFactor (sg : Sign) : Z :=
  match sg with MinusSign => -1 | _ => 1 end.

Definition hasHexPrefix (s : string) : bool :=
  match s with
  | String "0" (String "x" _) | String "0" (String "X" _) => true
  | _ => false
  end.

End JsParse.

Import JsParse.

(** ** The component *)

Module Frame.

Local Open Scope string_scope.
Local Open Scope Z_scope.

Record NutStats := {
  fid : Z;
  username : string;
  sent : Z;
  received : Z;
  failedAttempts : Z;
  lastUpdated : Date
}.

Record LeaderboardEntry := {
  entry_fid : Z;
  entry_username : string;
  totalPoints : Z
}.

Inductive ViewState := STATS | LEADERBOARD | SEARCH.

(** *** The allowance window

    [DAILY_ALLOWANCE] and [ALLOWANCE_RESET_HOUR] are configuration
    constants the file uses without defining them, and [now] is the
    clock's reading at the call ([new Date()]): all three are
    parameters. *)
Section Allowance.

Variable DAILY_ALLOWANCE : Z.
Variable ALLOWANCE_RESET_HOUR : Z.
Variable now : Date.

Definition calculateDailyAllowance (lastUpdated : Date) : Number :=
  let lastReset := newDate lastUpdated in
  let lastReset := setUTCHours lastReset ALLOWANCE_RESET_HOUR 0 0 0 in
  if strictNe (getUTCDate now) (getUTCDate lastReset)
     || strictNe (getUTCMonth now) (getUTCMonth lastReset)
     || strictNe (getUTCFullYear now) (getUTCFullYear lastReset)
  then Some DAILY_ALLOWANCE
  else
    Math_max
      (sub (Some DAILY_ALLOWANCE)
           (mul (sub (getUTCHours now) (Some ALLOWANCE_RESET_HOUR)) (Some 1)))
      (Some 0).

End Allowance.

(** *** Component state

    The host context as far as the component reads it:
    [context.client.added], and [context.actor?.fid], which is absent
    when there is no actor. *)
Record FrameContext := {
  client_added : bool;
  actor_fid : option Z
}.

(** One field per [useState] of [Frame]. *)
Record State := {
  isSDKLoaded : bool;
  context : option FrameContext;
  currentView : ViewState;
  userStats : option NutStats;
  leaderboard : list LeaderboardEntry;
  searchFid : string;
  searchResults : option NutStats;
  error : string;
  added : bool;
  addFrameResult : string
}.

(** The arguments of the [useState] calls. *)
Definition initialState : State := {|
  isSDKLoaded := false;
  context := None;
  currentView := STATS;
  userStats := None;
  leaderboard := [];
  searchFid := "";
  searchResults := None;
  error := "";
  added := false;
  addFrameResult := ""
|}.

(** *** Effects

    A handler runs against the network, updates the component state and
    may throw.  What is thrown is either an [Error] object, of which the
    handlers read the [message], or some other value. *)
Inductive Thrown :=
| JsError (message : string)
| NotAnError.

(** The two requests the component issues:
    [GET /api/nuts/stats?fid=${fid}] and [GET /api/nuts/leaderboard]. *)
Inductive Request :=
| StatsRequest (fid : IntegerNumber)
| LeaderboardRequest.

(** A response: its [ok] flag and what [response.json()] settles to. *)
Record Response (A : Type) := {
  ok : bool;
  json : Thrown + A
}.

Arguments ok {A} _.
Arguments json {A} _.

(** [fetch(url)] either rejects or resolves to a response. *)
Definition FetchOutcome (A : Type) : Type := Thrown + Response A.

Record Network := {
  statsEndpoint : IntegerNumber -> FetchOutcome NutStats;
  leaderboardEndpoint : FetchOutcome (list LeaderboardEntry)
}.

(** The component state together with the requests issued so far, oldest
    first. *)
Record World := {
  state : State;
  requests : list Request
}.

Definition Async (A : Type) : Type :=
  Network -> World -> (Thrown + A) * World.

Definition ret {A} (a : A) : Async A := fun _ w => (inr a, w).

Definition bind {A B} (c : Async A) (k : A -> Async B) : Async B :=
  fun net w =>
    match c net w with
    | (inr a, w') => k a net w'
    | (inl e, w') => (inl e, w')
    end.

Definition throw {A} (e : Thrown) : Async A := fun _ w => (inl e, w).

(** [try { body } catch (err) { handler }]: what the body did to the state
    before it threw stays done. *)
Definition tryCatch {A} (body : Async A) (handler : Thrown -> Async A)
  : Async A :=
  fun net w =>
    match body net w with
    | (inr a, w') => (inr a, w')
    | (inl e, w') => handler e net w'
    end.

Notation "x <- c ;; k" := (bind c (fun x => k))
  (at level 61, c at next level, right associativity).
Notation "c ;; k" := (bind c (fun _ => k))
  (at level 61, right associativity).

Definition readState {A} (f : State -> A) : Async A :=
  fun _ w => (inr (f (state w)), w).

Definition modify (f : State -> State) : Async unit :=
  fun _ w => (inr tt, {| state := f (state w); requests := requests w |}).

Definition setCurrentView (v : ViewState) : Async unit :=
  modify (fun s => {|
    isSDKLoaded := isSDKLoaded s; context := context s;
    currentView := v;
    userStats := userStats s; leaderboard := leaderboard s;
    searchFid := searchFid s; searchResults := searchResults s;
    error := error s; added := added s;
    addFrameResult := addFrameResult s |}).

Definition setUserStats (v : option NutStats) : Async unit :=
  modify (fun s => {|
    isSDKLoaded := isSDKLoaded s; context := context s;
    currentView := currentView s;
    userStats := v;
    leaderboard := leaderboard s;
    searchFid := searchFid s; searchResults := searchResults s;
    error := error s; added := added s;
    addFrameResult := addFrameResult s |}).

Definition setLeaderboard (v : list LeaderboardEntry) : Async unit :=
  modify (fun s => {|
    isSDKLoaded := isSDKLoaded s; context := context s;
    currentView := currentView s; userStats := userStats s;
    leaderboard := v;
    searchFid := searchFid s; searchResults := searchResults s;
    error := error s; added := added s;
    addFrameResult := addFrameResult s |}).

Definition setSearchFid (v : string) : Async unit :=
  modify (fun s => {|
    isSDKLoaded := isSDKLoaded s; context := context s;
    currentView := currentView s; userStats := userStats s;
    leaderboard := leaderboard s;
    searchFid := v;
    searchResults := searchResults s;
    error := error s; added := added s;
    addFrameResult := addFrameResult s |}).

Definition setSearchResults (v : option NutStats) : Async unit :=
  modify (fun s => {|
    isSDKLoaded := isSDKLoaded s; context := context s;
    currentView := currentView s; userStats := userStats s;
    leaderboard := leaderboard s; searchFid := searchFid s;
    searchResults := v;
    error := error s; added := added s;
    addFrameResult := addFrameResult s |}).

Definition setError (v : string) : Async unit :=
  modify (fun s => {|
    isSDKLoaded := isSDKLoaded s; context := context s;
    currentView := currentView s; userStats := userStats s;
    leaderboard := leaderboard s; searchFid := searchFid s;
    searchResults := searchResults s;
    error := v;
    added := added s;
    addFrameResult := addFrameResult s |}).

(** [await fetch(url)]: the request is recorded, then the promise settles
    as the network says. *)
Definition fetch {A} (req : Request) (reply : Network -> FetchOutcome A)
  : Async (Response A) :=
  fun net w =>
    (reply net, {| state := state w; requests := requests w ++ [req] |}).

(** [return response.json()] from an async function. *)
Definition awaitJson {A} (response : Response A) : Async A :=
  fun _ w => (json response, w).

Definition fetchNutStats (fid : IntegerNumber) : Async NutStats :=
  response <- fetch (StatsRequest fid) (fun net => statsEndpoint net fid) ;;
  if negb (ok response) then throw (JsError "Failed to fetch stats")
  else awaitJson response.

Definition fetchLeaderboard : Async (list LeaderboardEntry) :=
  response <- fetch LeaderboardRequest leaderboardEndpoint ;;
  if negb (ok response) then throw (JsError "Failed to fetch leaderboard")
  else awaitJson response.

(** [err instanceof Error ? err.message : fallback] *)
Definition messageOr (err : Thrown) (fallback : string) : string :=
  match err with
  | JsError message => message
  | NotAnError => fallback
  end.

(** *** The search handler *)
Definition handleSearch : Async unit :=
  tryCatch
    (searchFid <- readState searchFid ;;
     if isEmpty searchFid then ret tt
     else
       let fid := parseInt searchFid in
       if isNaN fid then throw (JsError "Invalid FID")
       else
         results <- fetchNutStats fid ;;
         setSearchResults (Some results) ;;
         setError "")
    (fun err =>
       setError (messageOr err "Failed to search") ;;
       setSearchResults None).

(** *** The refresh cycle

    [context?.client.added && context.actor?.fid], as the identifier to
    fetch when the condition is truthy: the context is there, the host
    reports the frame as added, and the actor's fid is present and not
    0. *)
Definition ownFid (context : option FrameContext) : option Z :=
  match context with
  | None => None
  | Some c =>
      if client_added c then
        match actor_fid c with
        | Some fid => if fid =? 0 then None else Some fid
        | None => None
        end
      else None
  end.

Definition loadInitialData : Async unit :=
  tryCatch
    (context <- readState context ;;
     match ownFid context with
     | Some fid =>
         stats <- fetchNutStats (Finite fid) ;;
         setUserStats (Some stats)
     | None => ret tt
     end ;;
     leaderboardData <- fetchLeaderboard ;;
     setLeaderboard leaderboardData)
    (fun err => setError (messageOr err "Failed to load data")).

(** *** The view buttons

    Each button's [onClick] is [setCurrentView] at its own view; a
    sequence of clicks runs them in order. *)
Fixpoint clicks (views : list ViewState) : Async unit :=
  match views with
  | [] => ret tt
  | v :: rest => setCurrentView v ;; clicks rest
  end.

(** The dependency array of the refresh effect is [[context]]: the effect
    runs again, and with it an immediate cycle, only after a render in
    which the context has changed. *)
Definition refreshDeps (s : State) : option FrameContext := context s.

(** Running a handler: its outcome, and the world it leaves. *)
Definition outcome {A} (c : Async A) (net : Network) (w : World)
  : Thrown + A := fst (c net w).

Definition after {A} (c : Async A) (net : Network) (w : World) : World :=
  snd (c net w).

(** *** Vocabulary of the claims and sample data *)

(** The authenticated identity the host reports, if any. *)
Definition identity (context : option FrameContext) : option Z :=
  match context with
  | Some c => actor_fid c
  | None => None
  end.

(** Whether the host has acknowledged the frame as added. *)
Definition hostAdded (context : option FrameContext) : bool :=
  match context with
  | Some c => client_added c
  | None => false
  end.

Definition fresh (s : State) : World := {| state := s; requests := [] |}.

Definition alice : NutStats := {|
  fid := 7; username := "alice"; sent := 3; received := 5;
  failedAttempts := 1; lastUpdated := Some (utc 2025 1 1 9)
|}.

Definition board : list LeaderboardEntry :=
  [ {| entry_fid := 7; entry_username := "alice"; totalPoints := 8 |};
    {| entry_fid := 9; entry_username := "bob"; totalPoints := 2 |} ].

(** Both endpoints answer. *)
Definition netUp : Network := {|
  statsEndpoint := fun _ => inr {| ok := true; json := inr alice |};
  leaderboardEndpoint := inr {| ok := true; json := inr board |}
|}.

(** The stats endpoint answers with a non-success status; the leaderboard
    endpoint answers. *)
Definition netStatsDown : Network := {|
  statsEndpoint := fun _ => inr {| ok := false; json := inl NotAnError |};
  leaderboardEndpoint := inr {| ok := true; json := inr board |}
|}.

(** The state of a mounted frame: user 7 signed in, frame added, the
    search box holding [query], the banner showing [message]. *)
Definition mounted (query message : string) : State := {|
  isSDKLoaded := true;
  context := Some {| client_added := true; actor_fid := Some 7 |};
  currentView := STATS;
  userStats := None;
  leaderboard := [];
  searchFid := query;
  searchResults := None;
  error := message;
  added := true;
  addFrameResult := ""
|}.

End Frame.

Import Frame.

(** ** The rest of the component: host handshake, timers, rendering *)

Module FrameHost.

Local Open Scope string_scope.
Local Open Scope Z_scope.

(** *** The remaining setters *)

Definition setIsSDKLoaded (v : bool) : Async unit :=
  modify (fun s => {|
    isSDKLoaded := v;
    context := context s;
    currentView := currentView s; userStats := userStats s;
    leaderboard := leaderboard s; searchFid := searchFid s;
    searchResults := searchResults s; error := error s;
    added := added s; addFrameResult := addFrameResult s |}).

Definition setContext (v : option FrameContext) : Async unit :=
  modify (fun s => {|
    isSDKLoaded := isSDKLoaded s;
    context := v;
    currentView := currentView s; userStats := userStats s;
    leaderboard := leaderboard s; searchFid := searchFid s;
    searchResults := searchResults s; error := error s;
    added := added s; addFrameResult := addFrameResult s |}).

Definition setAdded (v : bool) : Async unit :=
  modify (fun s => {|
    isSDKLoaded := isSDKLoaded s; context := context s;
    currentView := currentView s; userStats := userStats s;
    leaderboard := leaderboard s; searchFid := searchFid s;
    searchResults := searchResults s; error := error s;
    added := v;
    addFrameResult := addFrameResult s |}).

Definition setAddFrameResult (v : string) : Async unit :=
  modify (fun s => {|
    isSDKLoaded := isSDKLoaded s; context := context s;
    currentView := currentView s; userStats := userStats s;
    leaderboard := leaderboard s; searchFid := searchFid s;
    searchResults := searchResults s; error := error s;
    added := added s;
    addFrameResult := v |}).

(** *** [addFrame]

    What [sdk.actions.addFrame()] can reject with: a value of one of the
    two classes the handler tests for, or anything else.  The handler
    reads its [message] and its rendering in a template string. *)
Inductive SdkErrorClass := RejectedByUser | InvalidDomainManifest | OtherClass.

Record SdkError := {
  errorClass : SdkErrorClass;
  errorMessage : string;
  errorString : string
}.

Definition isRejectedByUser (e : SdkError) : bool :=
  match errorClass e with RejectedByUser => true | _ => false end.

Definition isInvalidDomainManifest (e : SdkError) : bool :=
  match errorClass e with InvalidDomainManifest => true | _ => false end.

(** [reply] is how the awaited SDK call settles: [inr tt] when it
    resolves, [inl error] when it rejects.  The three statements of the
    [catch] block run one after the other: there is no [else] and no
    [return] between them. *)
Definition addFrame (reply : SdkError + unit) : Async unit :=
  match reply with
  | inr _ => ret tt
  | inl error =>
      (if isRejectedByUser error
       then setAddFrameResult ("Not added: " ++ errorMessage error)
       else ret tt) ;;
      (if isInvalidDomainManifest error
       then setAddFrameResult ("Not added: " ++ errorMessage error)
       else ret tt) ;;
      setAddFrameResult ("Error: " ++ errorString error)
  end.

(** *** The host's events

    The six listeners [load] registers.  Two of them write state; the
    other four only log to the console. *)
Inductive SdkEvent :=
| frameAdded
| frameAddRejected
| frameRemoved
| notificationsEnabled
| notificationsDisabled
| primaryButtonClicked.

Definition onSdkEvent (e : SdkEvent) : Async unit :=
  match e with
  | frameAdded => setAdded true
  | frameRemoved => setAdded false
  | frameAddRejected | notificationsEnabled | notificationsDisabled
  | primaryButtonClicked => ret tt
  end.

Fixpoint onSdkEvents (events : list SdkEvent) : Async unit :=
  match events with
  | [] => ret tt
  | e :: rest => onSdkEvent e ;; onSdkEvents rest
  end.

(** *** [load] and the effect that starts it

    [sdkContext] is what [await sdk.context] gives ([None] for a falsy
    value), [addFrameReply] how the host answers the add-frame prompt.
    [addFrame()] is started without [await]; it writes [addFrameResult],
    which nothing else writes, so its effect on the state is the same
    whenever it lands, and it is sequenced here. *)
Definition load (sdkContext : option FrameContext)
    (addFrameReply : SdkError + unit) : Async unit :=
  match sdkContext with
  | None => ret tt
  | Some context =>
      setContext (Some context) ;;
      setAdded (client_added context) ;;
      if negb (client_added context) then addFrame addFrameReply
      else ret tt
  end.

(** The effect with dependencies [[isSDKLoaded, addFrame]]; [sdk] is an
    imported module and always truthy. *)
Definition sdkEffect (sdkContext : option FrameContext)
    (addFrameReply : SdkError + unit) : Async unit :=
  loaded <- readState isSDKLoaded ;;
  if negb loaded then
    setIsSDKLoaded true ;;
    load sdkContext addFrameReply
  else ret tt.

(** *** The refresh timer

    [setInterval] hands out a fresh handle and records the timer;
    [clearInterval] drops the timer with that handle, if any. *)
Record Scheduler := {
  nextHandle : Z;
  intervals : list (Z * Z)
}.

Definition setInterval (delay : Z) (sch : Scheduler) : Z * Scheduler :=
  (nextHandle sch,
   {| nextHandle := nextHandle sch + 1;
      intervals := intervals sch ++ [(nextHandle sch, delay)] |}).

Definition clearInterval (handle : Z) (sch : Scheduler) : Scheduler :=
  {| nextHandle := nextHandle sch;
     intervals :=
       filter (fun timer => negb (fst timer =? handle)) (intervals sch) |}.

(** The body of the refresh effect: start the timer, run one cycle at
    once, and give back the handle its cleanup will clear. *)
Definition refreshEffect (net : Network) (page : World * Scheduler)
  : Z * (World * Scheduler) :=
  let '(w, sch) := page in
  let '(interval, sch) := setInterval 30000 sch in
  (interval, (after loadInitialData net w, sch)).

Definition refreshCleanup (interval : Z) (page : World * Scheduler)
  : World * Scheduler :=
  let '(w, sch) := page in (w, clearInterval interval sch).

(** React runs an effect's cleanup before it runs the effect again: one
    re-run per network the next cycles will meet. *)
Fixpoint rerunRefresh (nets : list Network)
    (running : Z * (World * Scheduler)) : Z * (World * Scheduler) :=
  match nets with
  | [] => running
  | net :: rest =>
      let '(interval, page) := running in
      rerunRefresh rest (refreshEffect net (refreshCleanup interval page))
  end.

Definition idle : Scheduler := {| nextHandle := 1; intervals := [] |}.

(** One cycle after the other, each against the network of its time. *)
Fixpoint cycles (nets : list Network) (w : World) : World :=
  match nets with
  | [] => w
  | net :: rest => cycles rest (after loadInitialData net w)
  end.

(** Every recorded handle was handed out earlier. *)
Definition wellFormed (sch : Scheduler) : Prop :=
  Forall (fun timer => fst timer < nextHandle sch) (intervals sch).

(** *** What is on screen

    The content the component returns, without markup and styling: the
    loading placeholder, or the error banner and at most one card. *)
Record StatsCard := {
  card_username : string;
  card_fid : Z;
  card_sent : Z;
  card_received : Z;
  card_remaining : Number;
  card_failedAttempts : Z
}.

Record LeaderboardRow := {
  row_rank : Z;
  row_username : string;
  row_totalPoints : Z
}.

Record SearchPanel := {
  panel_sent : Z;
  panel_received : Z;
  panel_failed : Z
}.

Record SearchCard := {
  inputValue : string;
  panel : option SearchPanel
}.

Inductive Screen :=
| LoadingScreen
| PageScreen (banner : option string) (statsCard : option StatsCard)
    (leaderboardCard : option (list LeaderboardRow))
    (searchCard : option SearchCard).

(** [leaderboard.map((entry, index) => ...)], counting from [index]. *)
Fixpoint leaderboardRows (index : Z) (entries : list LeaderboardEntry)
  : list LeaderboardRow :=
  match entries with
  | [] => []
  | entry :: rest =>
      {| row_rank := index + 1;
         row_username := entry_username entry;
         row_totalPoints := totalPoints entry |}
      :: leaderboardRows (index + 1) rest
  end.

Definition isStats (v : ViewState) : bool :=
  match v with STATS => true | _ => false end.

Definition isLeaderboard (v : ViewState) : bool :=
  match v with LEADERBOARD => true | _ => false end.

Definition isSearch (v : ViewState) : bool :=
  match v with SEARCH => true | _ => false end.

Section Render.

Variable DAILY_ALLOWANCE : Z.
Variable ALLOWANCE_RESET_HOUR : Z.
Variable now : Date.

Definition render (s : State) : Screen :=
  if negb (isSDKLoaded s) then LoadingScreen
  else
    PageScreen
      (if isEmpty (error s) then None else Some (error s))
      (if isStats (currentView s) then
         match userStats s with
         | Some userStats =>
             Some {| card_username := username userStats;
                     card_fid := fid userStats;
                     card_sent := sent userStats;
                     card_received := received userStats;
                     card_remaining :=
                       calculateDailyAllowance DAILY_ALLOWANCE
                         ALLOWANCE_RESET_HOUR now (lastUpdated userStats);
                     card_failedAttempts := failedAttempts userStats |}
         | None => None
         end
       else None)
      (if isLeaderboard (currentView s)
       then Some (leaderboardRows 0 (leaderboard s))
       else None)
      (if isSearch (currentView s) then
         Some {| inputValue := searchFid s;
                 panel :=
                   match searchResults s with
                   | Some searchResults =>
                       Some {| panel_sent := sent searchResults;
                               panel_received := received searchResults;
                               panel_failed := failedAttempts searchResults |}
                   | None => None
                   end |}
       else None).

End Render.

(** Sample data. *)
Definition declined : SdkError := {|
  errorClass := RejectedByUser;
  errorMessage := "rejected";
  errorString := "RejectedByUser: rejected"
|}.

(** A mounted frame whose actor has fid 0. *)
Definition mountedAsZero : State := {|
  isSDKLoaded := true;
  context := Some {| client_added := true; actor_fid := Some 0 |};
  currentView := STATS;
  userStats := None;
  leaderboard := [];
  searchFid := "";
  searchResults := None;
  error := "";
  added := true;
  addFrameResult := ""
|}.

End FrameHost.

Import FrameHost.

(** * Properties *)

(** ** Calendar arithmetic *)

Section Calendar.

Local Open Scope Z_scope.

Lemma DayFromYear_step (y : Z) :
  DayFromYear (y + 1) - DayFromYear y = DaysInYear y.
Proof.
  unfold DayFromYear, DaysInYear.
  destruct (Z.eqb_spec (y mod 4) 0); destruct (Z.eqb_spec (y mod 100) 0);
    destruct (Z.eqb_spec (y mod 400) 0); cbn [negb];
    Z.div_mod_to_equations; lia.
Qed.

Lemma DayFromYear_mono (y y' : Z) :
  y <= y' -> DayFromYear y <= DayFromYear y'.
Proof.
  intros Hle. unfold DayFromYear. Z.div_mod_to_equations. lia.
Qed.

Lemma YearFromDay_bounds (d : Z) :
  DayFromYear (YearFromDay d) <= d < DayFromYear (YearFromDay d + 1).
Proof.
  unfold YearFromDay.
  set (y := 1970 + 400 * d / 146097).
  assert (Hlo : DayFromYear (y - 1) <= d)
    by (unfold DayFromYear, y; Z.div_mod_to_equations; lia).
  assert (Hhi : d < DayFromYear (y + 2))
    by (unfold DayFromYear, y; Z.div_mod_to_equations; lia).
  destruct (Z.leb_spec (DayFromYear (y + 1)) d).
  - replace (y + 1 + 1) with (y + 2) by lia. lia.
  - destruct (Z.leb_spec (DayFromYear y) d).
    + lia.
    + replace (y - 1 + 1) with y by lia. lia.
Qed.

(** [YearFromTime t] is the year ECMAScript defines: the largest [y] whose
    first instant is not after [t]. *)
Lemma YearFromTime_spec (t : Z) :
  TimeFromYear (YearFromTime t) <= t /\
  forall y, TimeFromYear y <= t -> y <= YearFromTime t.
Proof.
  unfold YearFromTime, TimeFromYear.
  pose proof (YearFromDay_bounds (Day t)) as [Hlo Hhi].
  assert (Hday : msPerDay * Day t <= t < msPerDay * (Day t + 1))
    by (unfold Day, msPerDay; Z.div_mod_to_equations; lia).
  split.
  - unfold msPerDay in *. lia.
  - intros y Hy.
    destruct (Z.le_gt_cases y (YearFromDay (Day t))) as [Hle | Hgt]; [exact Hle |].
    assert (Hm : DayFromYear (YearFromDay (Day t) + 1) <= DayFromYear y)
      by (apply DayFromYear_mono; lia).
    unfold msPerDay in *. lia.
Qed.

Lemma DayWithinYear_bounds (t : Z) :
  0 <= DayWithinYear t < DaysInYear (YearFromTime t).
Proof.
  unfold DayWithinYear, YearFromTime.
  pose proof (YearFromDay_bounds (Day t)).
  pose proof (DayFromYear_step (YearFromDay (Day t))).
  lia.
Qed.

(** The calendar fields read the day number and nothing else. *)
Lemma utcDate_of_Day (a b : Z) : Day a = Day b -> utcDate a = utcDate b.
Proof.
  intros Heq.
  assert (Hy : YearFromTime a = YearFromTime b)
    by (unfold YearFromTime; now rewrite Heq).
  assert (Hd : DayWithinYear a = DayWithinYear b)
    by (unfold DayWithinYear; now rewrite Heq, Hy).
  assert (Hl : InLeapYear a = InLeapYear b)
    by (unfold InLeapYear; now rewrite Hy).
  assert (Hm : MonthFromTime a = MonthFromTime b)
    by (unfold MonthFromTime; now rewrite Hd, Hl).
  unfold utcDate, DateFromTime. now rewrite Hy, Hm, Hd, Hl.
Qed.

(** Setting the hour of an in-range instant, other than the very last
    one, keeps its day and gives a valid [Date]. *)
Lemma setUTCHours_keeps_day (t h : Z) :
  0 <= h <= 23 -> - maxTime <= t < maxTime ->
  exists t', setUTCHours (Some t) h 0 0 0 = Some t' /\ Day t' = Day t.
Proof.
  intros Hh Ht.
  exists (MakeDate (Day t) (MakeTime h 0 0 0)). split.
  - unfold setUTCHours, TimeClip. rewrite Z.gtb_ltb.
    destruct (Z.ltb_spec maxTime (Z.abs (MakeDate (Day t) (MakeTime h 0 0 0))))
      as [Hbad | _]; [exfalso | reflexivity].
    revert Hbad.
    unfold MakeDate, MakeTime, Day, maxTime, msPerDay, msPerHour,
      msPerMinute, msPerSecond in *.
    Z.div_mod_to_equations. lia.
  - unfold MakeDate, MakeTime, Day, msPerDay, msPerHour, msPerMinute,
      msPerSecond.
    Z.div_mod_to_equations. lia.
Qed.

(** The day within the year, back from the month and the day of the
    month. *)
Lemma DayWithinYear_of_fields (t : Z) :
  DayWithinYear t =
    DateFromTime t +
    match MonthFromTime t with
    | 0 => -1
    | 1 => 30
    | 2 => 58 + InLeapYear t
    | 3 => 89 + InLeapYear t
    | 4 => 119 + InLeapYear t
    | 5 => 150 + InLeapYear t
    | 6 => 180 + InLeapYear t
    | 7 => 211 + InLeapYear t
    | 8 => 242 + InLeapYear t
    | 9 => 272 + InLeapYear t
    | 10 => 303 + InLeapYear t
    | _ => 333 + InLeapYear t
    end.
Proof.
  unfold DateFromTime, MonthFromTime.
  repeat match goal with
    | |- context [if ?c then _ else _] => destruct c
    end; lia.
Qed.

(** Two instants with the same calendar date lie on the same day. *)
Lemma Day_of_utcDate (a b : Z) : utcDate a = utcDate b -> Day a = Day b.
Proof.
  unfold utcDate. intros [= Hy Hm Hd].
  assert (Hl : InLeapYear a = InLeapYear b)
    by (unfold InLeapYear; now rewrite Hy).
  pose proof (DayWithinYear_of_fields a) as Ha.
  pose proof (DayWithinYear_of_fields b) as Hb.
  rewrite Hm, Hd, Hl in Ha. rewrite <- Hb in Ha.
  unfold DayWithinYear in Ha. rewrite Hy in Ha. lia.
Qed.

Lemma sameUtcDate_true (a b : Z) :
  sameUtcDate a b = true <-> utcDate a = utcDate b.
Proof.
  unfold sameUtcDate, utcDate. split.
  - intros H. apply andb_prop in H as [H Hd]. apply andb_prop in H as [Hy Hm].
    apply Z.eqb_eq in Hy, Hm, Hd. now rewrite Hy, Hm, Hd.
  - intros H. injection H as Hy Hm Hd.
    rewrite Hy, Hm, Hd, !Z.eqb_refl. reflexivity.
Qed.

(** On the last representable day, which has a single instant, only
    hour 0 can be set: any later hour is out of range. *)
Lemma setUTCHours_last_day (h : Z) :
  0 < h -> setUTCHours (Some maxTime) h 0 0 0 = NaN.
Proof.
  intros Hh. unfold setUTCHours, TimeClip. rewrite Z.gtb_ltb.
  destruct (Z.ltb_spec maxTime
              (Z.abs (MakeDate (Day maxTime) (MakeTime h 0 0 0))))
    as [_ | Hok]; [reflexivity | exfalso].
  revert Hok.
  change (Day maxTime) with 100000000.
  unfold MakeDate, MakeTime, maxTime, msPerDay, msPerHour, msPerMinute,
    msPerSecond.
  lia.
Qed.

Lemma Day_before_last (t : Z) : t < maxTime -> Day t < 100000000.
Proof.
  unfold Day, maxTime, msPerDay. intros Ht. Z.div_mod_to_equations. lia.
Qed.

End Calendar.

(** ** The allowance window *)

Section AllowanceProperties.

Local Open Scope Z_scope.

(** The two branches, once the reset instant is a valid [Date] on
    [lastUpdated]'s day. *)
Lemma calculateDailyAllowance_of_reset
    (dailyAllowance resetHour now lastUpdated reset : Z) :
  setUTCHours (Some lastUpdated) resetHour 0 0 0 = Some reset ->
  Day reset = Day lastUpdated ->
  calculateDailyAllowance dailyAllowance resetHour (Some now)
      (Some lastUpdated) =
    if sameUtcDate lastUpdated now
    then Some (Z.max (dailyAllowance - (HourFromTime now - resetHour)) 0)
    else Some dailyAllowance.
Proof.
  intros Hreset Hday.
  unfold calculateDailyAllowance, newDate. rewrite Hreset.
  pose proof (utcDate_of_Day _ _ Hday) as Hdate.
  unfold sameUtcDate. rewrite <- Hdate. unfold utcDate.
  cbn [getUTCDate getUTCMonth getUTCFullYear getUTCHours option_map
       strictNe sub mul Math_max].
  rewrite Z.mul_1_r.
  rewrite (Z.eqb_sym (DateFromTime now)), (Z.eqb_sym (MonthFromTime now)),
    (Z.eqb_sym (YearFromTime now)).
  destruct (YearFromTime reset =? YearFromTime now);
    destruct (MonthFromTime reset =? MonthFromTime now);
    destruct (DateFromTime reset =? DateFromTime now); reflexivity.
Qed.

(** C1. For a reset hour in 0-23, every [lastUpdated] a [Date] can hold
    and every reading [now] of the clock short of the last representable
    millisecond: when the UTC calendar dates of [lastUpdated] and [now]
    differ the result is exactly [dailyAllowance]; when they agree it is
    [max (dailyAllowance - (now's UTC hour - resetHour)) 0], one less for
    each hour past the reset hour, and never below 0. *)
Theorem remainingAllowance_by_date
    (dailyAllowance resetHour now lastUpdated : Z) :
  0 <= resetHour <= 23 ->
  validTime lastUpdated ->
  validTime now -> now <> maxTime ->
  calculateDailyAllowance dailyAllowance resetHour (Some now)
      (Some lastUpdated) =
    if sameUtcDate lastUpdated now
    then Some (Z.max (dailyAllowance - (HourFromTime now - resetHour)) 0)
    else Some dailyAllowance.
Proof.
  intros Hh [Hlo Hhi] [_ Hnow] Hlast.
  destruct (Z.eq_dec lastUpdated maxTime) as [-> | Hne].
  - (* lastUpdated is the last instant: [now] is on an earlier day *)
    assert (Hdiff : sameUtcDate maxTime now = false).
    { destruct (sameUtcDate maxTime now) eqn:Hs; [| reflexivity].
      apply sameUtcDate_true, Day_of_utcDate in Hs.
      assert (Day now < 100000000) by (apply Day_before_last; lia).
      change (Day maxTime) with 100000000 in Hs. lia. }
    rewrite Hdiff.
    destruct (Z.eq_dec resetHour 0) as [-> | Hpos].
    + rewrite (calculateDailyAllowance_of_reset _ 0 now maxTime maxTime)
        by reflexivity.
      now rewrite Hdiff.
    + unfold calculateDailyAllowance, newDate.
      rewrite setUTCHours_last_day by lia.
      cbn [getUTCDate option_map NaN]. unfold strictNe.
      now destruct (getUTCDate (Some now)).
  - destruct (setUTCHours_keeps_day lastUpdated resetHour Hh)
      as (reset & Hreset & Hday); [lia |].
    exact (calculateDailyAllowance_of_reset _ _ _ _ _ Hreset Hday).
Qed.

Lemma remainingAllowance_by_date_witness :
  calculateDailyAllowance 10 8 (Some (utc 2025 1 1 12))
    (Some (utc 2025 1 1 9)) = Some 6.
Proof.
  apply (remainingAllowance_by_date 10 8 (utc 2025 1 1 12) (utc 2025 1 1 9)).
  - lia.
  - vm_compute. split; discriminate.
  - vm_compute. split; discriminate.
  - discriminate.
Defined.

(** The spec's other worked examples. *)
Example allowance_replenished_next_day :
  calculateDailyAllowance 10 0 (Some (utc 2025 1 2 1))
    (Some (utc 2025 1 1 23)) = Some 10.
Proof. reflexivity. Qed.

Example allowance_fully_decayed :
  calculateDailyAllowance 5 0 (Some (utc 2025 1 1 23))
    (Some (utc 2025 1 1 2)) = Some 0.
Proof. reflexivity. Qed.

(** At the one instant left out above the reset instant overflows the
    range of [Date], the comparison is against [NaN], and the full
    allowance comes back. *)
Example allowance_at_last_instant :
  sameUtcDate maxTime maxTime = true /\
  calculateDailyAllowance 10 8 (Some maxTime) (Some maxTime) = Some 10.
Proof. split; reflexivity. Qed.

(** X1. The result is a number and never negative, whatever the two
    dates, valid or not. *)
Lemma remainingAllowance_nonneg
    (dailyAllowance resetHour : Z) (now lastUpdated : Date) :
  0 <= dailyAllowance ->
  exists r,
    calculateDailyAllowance dailyAllowance resetHour now lastUpdated = Some r
    /\ 0 <= r.
Proof.
  intros HD. unfold calculateDailyAllowance.
  destruct now as [n |]; cbn [getUTCDate getUTCMonth getUTCFullYear
    getUTCHours option_map strictNe orb].
  - match goal with |- context [if ?c then _ else _] => destruct c end.
    + eauto.
    + cbn [sub mul Math_max]. eexists. split; [reflexivity | lia].
  - eauto.
Qed.

(** X2. From the reset hour on, the result stays within the allowance. *)
Lemma remainingAllowance_le_after_reset
    (dailyAllowance resetHour now lastUpdated r : Z) :
  0 <= dailyAllowance ->
  resetHour <= HourFromTime now ->
  calculateDailyAllowance dailyAllowance resetHour (Some now)
      (Some lastUpdated) = Some r ->
  r <= dailyAllowance.
Proof.
  intros HD Hh. unfold calculateDailyAllowance.
  match goal with |- context [if ?c then _ else _] => destruct c end.
  - intros [= <-]. lia.
  - cbn [getUTCHours option_map sub mul Math_max]. intros [= <-]. lia.
Qed.

(** C2. On 2025-02-01 at 03:00 UTC, with an allowance of 10 that resets at
    08:00 and stats last updated at 01:00 the same day, the remaining
    allowance comes out as 15: above the daily allowance of 10. *)
Theorem remainingAllowance_exceeds_before_reset :
  sameUtcDate (utc 2025 1 1 1) (utc 2025 1 1 3) = true /\
  HourFromTime (utc 2025 1 1 3) = 3 /\
  calculateDailyAllowance 10 8 (Some (utc 2025 1 1 3))
    (Some (utc 2025 1 1 1)) = Some 15.
Proof. repeat split. Qed.

End AllowanceProperties.

(** ** Requests *)

Section Fetching.

Local Open Scope string_scope.

(** A stats fetch issues its one request, leaves the component state
    alone, and settles the same way whatever the world it runs in. *)
Lemma fetchNutStats_after (fid : IntegerNumber) (net : Network) (w : World) :
  after (fetchNutStats fid) net w =
    {| state := state w; requests := requests w ++ [StatsRequest fid] |}.
Proof.
  unfold after, fetchNutStats, bind, fetch, throw, awaitJson.
  destruct (statsEndpoint net fid) as [e | [[] j]]; reflexivity.
Qed.

Lemma fetchNutStats_outcome (fid : IntegerNumber) (net : Network) (w w' : World) :
  outcome (fetchNutStats fid) net w = outcome (fetchNutStats fid) net w'.
Proof.
  unfold outcome, fetchNutStats, bind, fetch, throw, awaitJson.
  destruct (statsEndpoint net fid) as [e | [[] j]]; reflexivity.
Qed.

Lemma fetchNutStats_run (fid : IntegerNumber) (net : Network) (w : World) :
  fetchNutStats fid net w =
    (outcome (fetchNutStats fid) net w,
     {| state := state w; requests := requests w ++ [StatsRequest fid] |}).
Proof.
  rewrite <- (fetchNutStats_after fid net w). unfold outcome, after.
  now destruct (fetchNutStats fid net w).
Qed.

Lemma fetchLeaderboard_run (net : Network) (w : World) :
  fetchLeaderboard net w =
    (outcome fetchLeaderboard net w,
     {| state := state w; requests := requests w ++ [LeaderboardRequest] |}).
Proof.
  unfold outcome, fetchLeaderboard, bind, fetch, throw, awaitJson.
  destruct (leaderboardEndpoint net) as [e | [[] j]]; reflexivity.
Qed.

Lemma fetchLeaderboard_outcome (net : Network) (w w' : World) :
  outcome fetchLeaderboard net w = outcome fetchLeaderboard net w'.
Proof.
  unfold outcome, fetchLeaderboard, bind, fetch, throw, awaitJson.
  destruct (leaderboardEndpoint net) as [e | [[] j]]; reflexivity.
Qed.

(** How each client settles, read off the network's answer. *)
Lemma fetchNutStats_reply (fid : IntegerNumber) (net : Network) (w : World) :
  outcome (fetchNutStats fid) net w =
    match statsEndpoint net fid with
    | inl thrown => inl thrown
    | inr response =>
        if ok response then json response
        else inl (JsError "Failed to fetch stats")
    end.
Proof.
  unfold outcome, fetchNutStats, bind, fetch, throw, awaitJson.
  destruct (statsEndpoint net fid) as [e | [[] j]]; reflexivity.
Qed.

Lemma fetchLeaderboard_reply (net : Network) (w : World) :
  outcome fetchLeaderboard net w =
    match leaderboardEndpoint net with
    | inl thrown => inl thrown
    | inr response =>
        if ok response then json response
        else inl (JsError "Failed to fetch leaderboard")
    end.
Proof.
  unfold outcome, fetchLeaderboard, bind, fetch, throw, awaitJson.
  destruct (leaderboardEndpoint net) as [e | [[] j]]; reflexivity.
Qed.

(** A non-success response is a failure with the client's own message. *)
Lemma fetchNutStats_not_ok (fid : IntegerNumber) (net : Network) (w : World) r :
  statsEndpoint net fid = inr r -> ok r = false ->
  outcome (fetchNutStats fid) net w = inl (JsError "Failed to fetch stats").
Proof.
  intros Hr Hok. unfold outcome, fetchNutStats, bind, fetch, throw.
  rewrite Hr, Hok. reflexivity.
Qed.

End Fetching.

(** ** The search handler *)

Section SearchHandler.

Local Open Scope string_scope.
Local Open Scope list_scope.

Lemma parseInt_nonempty (q : string) :
  parseInt q <> NotANumber -> isEmpty q = false.
Proof. destruct q; [intros H; now destruct H | reflexivity]. Qed.

Lemma isNaN_false (n : IntegerNumber) : n <> NotANumber -> isNaN n = false.
Proof. destruct n; [reflexivity | reflexivity | intros H; now destruct H]. Qed.

(** The handler on a non-empty query, one case per outcome of the
    parse. *)
Lemma handleSearch_run (net : Network) (w : World) :
  isEmpty (searchFid (state w)) = false ->
  handleSearch net w =
    let fid := parseInt (searchFid (state w)) in
    if isNaN fid then
      (setError "Invalid FID" ;; setSearchResults None) net w
    else
      let w1 := {| state := state w;
                   requests := requests w ++ [StatsRequest fid] |} in
      match outcome (fetchNutStats fid) net w with
      | inr results =>
          (setSearchResults (Some results) ;; setError "") net w1
      | inl err =>
          (setError (messageOr err "Failed to search") ;;
           setSearchResults None) net w1
      end.
Proof.
  intros Hne.
  unfold handleSearch, tryCatch.
  unfold bind at 1. unfold readState at 1. rewrite Hne. cbv zeta.
  destruct (isNaN (parseInt (searchFid (state w)))).
  - reflexivity.
  - unfold bind at 1. rewrite fetchNutStats_run.
    destruct (outcome (fetchNutStats (parseInt (searchFid (state w)))) net w)
      as [e | results]; reflexivity.
Qed.

(** C5. A non-empty query that does not parse as an integer: no request
    goes out, the error becomes "Invalid FID" and the search result is
    cleared, from every prior state. *)
Theorem handleSearch_invalid (net : Network) (w : World) :
  searchFid (state w) <> "" ->
  parseInt (searchFid (state w)) = NotANumber ->
  let w' := after handleSearch net w in
  requests w' = requests w /\
  error (state w') = "Invalid FID" /\
  searchResults (state w') = None.
Proof.
  intros Hne Hnan.
  assert (He : isEmpty (searchFid (state w)) = false)
    by (destruct (searchFid (state w)); [congruence | reflexivity]).
  unfold after. rewrite (handleSearch_run net w He). cbv zeta. rewrite Hnan.
  repeat split.
Qed.

Lemma handleSearch_invalid_witness :
  let w' := after handleSearch netUp (fresh (mounted "abc" "")) in
  requests w' = [] /\
  error (state w') = "Invalid FID" /\
  searchResults (state w') = None.
Proof.
  apply (handleSearch_invalid netUp (fresh (mounted "abc" ""))).
  - discriminate.
  - reflexivity.
Defined.

(** C6. The empty query: the handler returns at once, and the world (the
    search result, the error, every other slice and the list of requests)
    is exactly what it was. *)
Theorem handleSearch_empty (net : Network) (w : World) :
  searchFid (state w) = "" ->
  outcome handleSearch net w = inr tt /\
  after handleSearch net w = w.
Proof.
  intros Hq.
  unfold outcome, after, handleSearch, tryCatch, bind, readState.
  rewrite Hq. split; reflexivity.
Qed.

Lemma handleSearch_empty_witness :
  outcome handleSearch netUp (fresh (mounted "" "Failed to fetch stats"))
    = inr tt /\
  after handleSearch netUp (fresh (mounted "" "Failed to fetch stats"))
    = fresh (mounted "" "Failed to fetch stats").
Proof.
  apply (handleSearch_empty netUp (fresh (mounted "" "Failed to fetch stats"))).
  reflexivity.
Defined.

(** C7. A query that parses as an integer, that is, on which [parseInt]
    gives a number [fid] and not [NaN]: exactly one request goes out, for
    the stats of [fid].  If the fetch succeeds (the transport resolves,
    the response is a success and its body parses) the search result is
    the returned stats and the error is cleared.  If it fails the search
    result is cleared and the error is the failure's message: the message
    of the [Error] the transport or the body threw, "Failed to fetch
    stats" for a response that is not a success, and "Failed to search"
    when what was thrown is not an [Error]. *)
Theorem handleSearch_parsed (net : Network) (w : World) :
  parseInt (searchFid (state w)) <> NotANumber ->
  let fid := parseInt (searchFid (state w)) in
  let w' := after handleSearch net w in
  let failed (message : string) :=
    error (state w') = message /\ searchResults (state w') = None in
  requests w' = requests w ++ [StatsRequest fid] /\
  match statsEndpoint net fid with
  | inl (JsError message) => failed message
  | inl NotAnError => failed "Failed to search"
  | inr response =>
      if ok response then
        match json response with
        | inr results =>
            searchResults (state w') = Some results /\ error (state w') = ""
        | inl (JsError message) => failed message
        | inl NotAnError => failed "Failed to search"
        end
      else failed "Failed to fetch stats"
  end.
Proof.
  intros Hn. cbv zeta. unfold after.
  rewrite (handleSearch_run net w (parseInt_nonempty _ Hn)). cbv zeta.
  rewrite (isNaN_false _ Hn), fetchNutStats_reply.
  destruct (statsEndpoint net (parseInt (searchFid (state w))))
    as [[message |] | [[] [[message |] | results]]]; repeat split.
Qed.

Lemma handleSearch_parsed_witness :
  let w' :=
    after handleSearch netUp (fresh (mounted "42" "Invalid FID")) in
  requests w' = [StatsRequest (Finite 42)] /\
  searchResults (state w') = Some alice /\ error (state w') = "".
Proof.
  apply (handleSearch_parsed netUp (fresh (mounted "42" "Invalid FID"))).
  discriminate.
Defined.

(** What goes out for a query beyond the integers a double holds is the
    rounded number, and past the largest double an infinity. *)
Example handleSearch_rounds :
  requests (after handleSearch netUp
              (fresh (mounted "9007199254740993" "")))
    = [StatsRequest (Finite 9007199254740992)].
Proof. reflexivity. Qed.

End SearchHandler.

(** ** Queries with a numeric prefix *)

Section NumericPrefix.

Local Open Scope string_scope.
Local Open Scope Z_scope.

Lemma isDecimalDigit_digitValue (c : ascii) :
  isDecimalDigit c = true ->
  digitValue c = Some (Z.of_nat (nat_of_ascii c) - 48)
  /\ Z.of_nat (nat_of_ascii c) - 48 < 10.
Proof.
  unfold isDecimalDigit, digitValue. intros H. rewrite H.
  apply andb_prop in H as [_ H]. apply Z.leb_le in H. split; [reflexivity | lia].
Qed.

Lemma radixDigits_nondigit (rest : string) :
  startsNonDigit rest = true -> radixDigits 10 rest = [].
Proof.
  destruct rest as [| c rest]; [reflexivity |].
  cbn [startsNonDigit radixDigits]. unfold isDecimalDigit, digitValue.
  set (n := Z.of_nat (nat_of_ascii c)). intros H.
  apply negb_true_iff in H. rewrite H.
  destruct ((97 <=? n) && (n <=? 122)) eqn:Hlow.
  - apply andb_prop in Hlow as [Hl _]. apply Z.leb_le in Hl.
    destruct (Z.ltb_spec (n - 87) 10); [lia | reflexivity].
  - destruct ((65 <=? n) && (n <=? 90)) eqn:Hup; [| reflexivity].
    apply andb_prop in Hup as [Hl _]. apply Z.leb_le in Hl.
    destruct (Z.ltb_spec (n - 55) 10); [lia | reflexivity].
Qed.

(** Reading the digits of [ds ++ rest] in radix 10 stops where [ds]
    does, and their value continues the accumulator. *)
Lemma radixDigits_decimal (ds rest : string) (acc : Z) :
  allDecimal ds = true -> startsNonDigit rest = true ->
  fold_left (fun a v => a * 10 + v) (radixDigits 10 (ds ++ rest)) acc
    = decimalValueFrom acc ds.
Proof.
  intros Hds Hrest. revert acc Hds.
  induction ds as [| c ds IH]; intros acc Hds.
  - cbn [append]. rewrite (radixDigits_nondigit rest Hrest). reflexivity.
  - cbn [allDecimal] in Hds. apply andb_prop in Hds as [Hc Hds].
    destruct (isDecimalDigit_digitValue c Hc) as [Hv Hlt].
    cbn [append radixDigits decimalValueFrom]. rewrite Hv.
    destruct (Z.ltb_spec (Z.of_nat (nat_of_ascii c) - 48) 10); [| lia].
    cbn [fold_left]. rewrite (IH _ Hds). f_equal. lia.
Qed.

Lemma radixDigits_decimal_nonempty (c : ascii) (s : string) :
  isDecimalDigit c = true -> radixDigits 10 (String c s) <> [].
Proof.
  intros Hc. destruct (isDecimalDigit_digitValue c Hc) as [Hv Hlt].
  cbn [radixDigits]. rewrite Hv.
  destruct (Z.ltb_spec (Z.of_nat (nat_of_ascii c) - 48) 10); [| lia].
  discriminate.
Qed.

(** On a string that starts with a decimal digit and not with [0x] or
    [0X], [parseInt] reads in radix 10 from the first code unit, and
    after a sign likewise. *)
Lemma parseInt_radix10 (c : ascii) (s : string) :
  isDecimalDigit c = true -> hasHexPrefix (String c s) = false ->
  parseInt (String c s) =
    match radixDigits 10 (String c s) with
    | [] => NotANumber
    | digits => roundToDouble (1 * mathInt 10 digits)
    end.
Proof.
  intros Hc Hhex.
  destruct c as [[] [] [] [] [] [] [] []]; try discriminate Hc;
    try reflexivity.
  destruct s as [| c2 s]; [reflexivity |].
  destruct c2 as [[] [] [] [] [] [] [] []]; try discriminate Hhex;
    reflexivity.
Qed.

Lemma parseInt_plus (c : ascii) (s : string) :
  isDecimalDigit c = true -> hasHexPrefix (String c s) = false ->
  parseInt (String "+" (String c s)) =
    match radixDigits 10 (String c s) with
    | [] => NotANumber
    | digits => roundToDouble (1 * mathInt 10 digits)
    end.
Proof.
  intros Hc Hhex.
  destruct c as [[] [] [] [] [] [] [] []]; try discriminate Hc;
    try reflexivity.
  destruct s as [| c2 s]; [reflexivity |].
  destruct c2 as [[] [] [] [] [] [] [] []]; try discriminate Hhex;
    reflexivity.
Qed.

Lemma parseInt_minus (c : ascii) (s : string) :
  isDecimalDigit c = true -> hasHexPrefix (String c s) = false ->
  parseInt (String "-" (String c s)) =
    match radixDigits 10 (String c s) with
    | [] => NotANumber
    | digits => roundToDouble (-1 * mathInt 10 digits)
    end.
Proof.
  intros Hc Hhex.
  destruct c as [[] [] [] [] [] [] [] []]; try discriminate Hc;
    try reflexivity.
  destruct s as [| c2 s]; [reflexivity |].
  destruct c2 as [[] [] [] [] [] [] [] []]; try discriminate Hhex;
    reflexivity.
Qed.

Lemma parseInt_signed (sg : Sign) (c : ascii) (s : string) :
  isDecimalDigit c = true -> hasHexPrefix (String c s) = false ->
  parseInt (signString sg ++ String c s) =
    match radixDigits 10 (String c s) with
    | [] => NotANumber
    | digits => roundToDouble (signFactor sg * mathInt 10 digits)
    end.
Proof.
  intros Hc Hhex. destruct sg.
  - exact (parseInt_radix10 c s Hc Hhex).
  - exact (parseInt_plus c s Hc Hhex).
  - exact (parseInt_minus c s Hc Hhex).
Qed.

(** Leading white space is skipped and changes nothing. *)
Lemma parseInt_trimmed (ws t : string) :
  allWhiteSpace ws = true -> parseInt (ws ++ t) = parseInt t.
Proof.
  intros Hws.
  assert (Htrim : trimStart (ws ++ t) = trimStart t).
  { induction ws as [| c ws IH]; [reflexivity |].
    cbn [allWhiteSpace] in Hws. apply andb_prop in Hws as [Hc Hws].
    cbn [append trimStart]. rewrite Hc. exact (IH Hws). }
  unfold parseInt. now rewrite Htrim.
Qed.

Lemma parseInt_leading_decimal (ws : string) (sg : Sign) (ds rest : string) :
  allWhiteSpace ws = true ->
  ds <> "" -> allDecimal ds = true -> startsNonDigit rest = true ->
  hasHexPrefix (ds ++ rest) = false ->
  parseInt (ws ++ signString sg ++ ds ++ rest)
    = roundToDouble (signFactor sg * decimalValue ds).
Proof.
  intros Hws Hne Hds Hrest Hhex.
  rewrite (parseInt_trimmed ws _ Hws).
  destruct ds as [| c ds]; [congruence |].
  pose proof Hds as Hall. cbn [allDecimal] in Hds.
  apply andb_prop in Hds as [Hc _].
  cbn [append] in Hhex.
  change (String c ds ++ rest)%string with (String c (ds ++ rest)).
  rewrite (parseInt_signed sg c _ Hc Hhex).
  pose proof (radixDigits_decimal_nonempty c (ds ++ rest) Hc) as Hnil.
  pose proof (radixDigits_decimal (String c ds) rest 0 Hall Hrest) as Hval.
  cbn [append] in Hval.
  destruct (radixDigits 10 (String c (ds ++ rest))) as [| d digits];
    [congruence |].
  unfold mathInt. rewrite Hval. reflexivity.
Qed.

Lemma decimalValueFrom_nonneg (s : string) :
  forall acc, allDecimal s = true -> 0 <= acc -> 0 <= decimalValueFrom acc s.
Proof.
  induction s as [| c s IH]; intros acc Hs Hacc; [exact Hacc |].
  cbn [allDecimal] in Hs. apply andb_prop in Hs as [Hc Hs].
  cbn [decimalValueFrom]. apply IH; [exact Hs |].
  unfold isDecimalDigit in Hc. apply andb_prop in Hc as [Hlo _].
  apply Z.leb_le in Hlo. lia.
Qed.

Lemma decimalValue_nonneg (s : string) :
  allDecimal s = true -> 0 <= decimalValue s.
Proof. intros Hs. apply decimalValueFrom_nonneg; [exact Hs | lia]. Qed.

(** Up to 2^53 in magnitude the Number value of an integer is the
    integer, and it is never [NaN]. *)
Lemma roundToDouble_exact (m : Z) :
  Z.abs m <= 2 ^ 53 -> roundToDouble m = Finite m.
Proof.
  intros Hm. unfold roundToDouble.
  destruct (Z.ltb_spec (Z.abs m) (2 ^ 53)) as [_ | Hge]; [reflexivity |].
  change (2 ^ 53) with 9007199254740992 in *.
  assert (Hcases : m = 9007199254740992 \/ m = - 9007199254740992) by lia.
  destruct Hcases as [-> | ->]; reflexivity.
Qed.

Lemma roundToDouble_number (m : Z) : roundToDouble m <> NotANumber.
Proof.
  unfold roundToDouble.
  destruct (Z.abs m <? 2 ^ 53); [discriminate |].
  match goal with |- context [if 2 ^ 1024 <=? ?r then _ else _] =>
    destruct (2 ^ 1024 <=? r) end; discriminate.
Qed.

Local Close Scope Z_scope.
Local Open Scope list_scope.

(** C10, as amended. A query made of optional white space, an optional
    sign, decimal digits [ds] and then something that does not start with
    a digit, the digits not opening with the hexadecimal prefix [0x] or
    [0X], is not rejected as invalid.  It parses as the Number value of
    the signed integer written, which is that integer itself up to 2^53
    and the nearest double or an infinity beyond; exactly one request goes
    out, for the stats of that number, and the error the handler leaves is
    the one of the fetch, empty when it succeeds. *)
Theorem handleSearch_numeric_prefix
    (net : Network) (w : World) (ws : string) (sg : Sign)
    (ds rest : string) :
  searchFid (state w) = (ws ++ signString sg ++ ds ++ rest)%string ->
  allWhiteSpace ws = true ->
  ds <> "" -> allDecimal ds = true -> startsNonDigit rest = true ->
  hasHexPrefix (ds ++ rest)%string = false ->
  let fid := roundToDouble (signFactor sg * decimalValue ds) in
  let w' := after handleSearch net w in
  parseInt (searchFid (state w)) = fid /\
  ((decimalValue ds <= 2 ^ 53)%Z ->
   fid = Finite (signFactor sg * decimalValue ds)) /\
  requests w' = requests w ++ [StatsRequest fid] /\
  error (state w') =
    match outcome (fetchNutStats fid) net w with
    | inr _ => ""
    | inl (JsError message) => message
    | inl NotAnError => "Failed to search"
    end.
Proof.
  intros Hq Hws Hne Hds Hrest Hhex. cbv zeta.
  assert (Hparse : parseInt (searchFid (state w))
                   = roundToDouble (signFactor sg * decimalValue ds))
    by (rewrite Hq; now apply parseInt_leading_decimal).
  assert (Hnum : parseInt (searchFid (state w)) <> NotANumber)
    by (rewrite Hparse; apply roundToDouble_number).
  split; [exact Hparse |]. split.
  - intros Hsmall. apply roundToDouble_exact.
    pose proof (decimalValue_nonneg ds Hds).
    destruct sg; cbn [signFactor]; lia.
  - unfold after.
    rewrite (handleSearch_run net w (parseInt_nonempty _ Hnum)). cbv zeta.
    rewrite (isNaN_false _ Hnum), Hparse.
    destruct (outcome (fetchNutStats
                         (roundToDouble (signFactor sg * decimalValue ds)))
                net w) as [[message |] | results]; split; reflexivity.
Qed.

Lemma handleSearch_numeric_prefix_witness :
  let w' := after handleSearch netUp (fresh (mounted " -12.7" "")) in
  parseInt " -12.7" = Finite (-12) /\
  ((12 <= 2 ^ 53)%Z -> Finite (-12) = Finite (-12)) /\
  requests w' = [StatsRequest (Finite (-12))] /\
  error (state w') = "".
Proof.
  apply (handleSearch_numeric_prefix netUp (fresh (mounted " -12.7" ""))
           " " MinusSign "12" ".7"); try reflexivity.
  discriminate.
Defined.

(** C10, as stated, fails in two ways.  The query ["9007199254740993.5"],
    which the number input accepts, has the leading integer
    9007199254740993, and the request that goes out is for
    9007199254740992, the nearest double.  And the query ["0xyz"], whose
    leading integer is [0] and whose trailing characters begin with [x],
    is read as an empty hexadecimal number: the handler reports "Invalid
    FID" and sends nothing. *)
Lemma handleSearch_numeric_prefix_counterexample :
  (allDecimal "9007199254740993" = true /\ startsNonDigit ".5" = true /\
   decimalValue "9007199254740993" = 9007199254740993%Z /\
   requests (after handleSearch netUp
               (fresh (mounted ("9007199254740993" ++ ".5") "")))
     = [StatsRequest (Finite 9007199254740992)] /\
   Finite 9007199254740992 <> Finite 9007199254740993) /\
  (allDecimal "0" = true /\ startsNonDigit "xyz" = true /\
   let w' := after handleSearch netUp (fresh (mounted ("0" ++ "xyz") "")) in
   error (state w') = "Invalid FID" /\ requests w' = []).
Proof. repeat split. discriminate. Qed.

(** With hexadecimal digits after the prefix the query is accepted, for
    the hexadecimal number rather than the leading [0]. *)
Example handleSearch_hexadecimal :
  requests (after handleSearch netUp (fresh (mounted "0x1A" "")))
    = [StatsRequest (Finite 26%Z)].
Proof. reflexivity. Qed.

Example handleSearch_decimal_point :
  requests (after handleSearch netUp (fresh (mounted "12.7" "")))
    = [StatsRequest (Finite 12%Z)].
Proof. reflexivity. Qed.

(** Past the largest double the identifier requested is an infinity. *)
Example roundToDouble_overflow :
  roundToDouble (10 ^ 400) = Infinity false /\
  roundToDouble (- 10 ^ 400) = Infinity true.
Proof. split; reflexivity. Qed.

End NumericPrefix.

(** ** The refresh cycle *)

Section Refresh.

Local Open Scope string_scope.
Local Open Scope list_scope.

(** The leaderboard half of a cycle: what the world is after the
    leaderboard fetch and the handling of its failure, from [w]. *)
Lemma loadInitialData_skipping_stats (net : Network) (w : World) :
  ownFid (context (state w)) = None ->
  loadInitialData net w =
    let w1 := {| state := state w;
                 requests := requests w ++ [LeaderboardRequest] |} in
    match outcome fetchLeaderboard net w with
    | inr leaderboardData => setLeaderboard leaderboardData net w1
    | inl err => setError (messageOr err "Failed to load data") net w1
    end.
Proof.
  intros Hgate.
  unfold loadInitialData, tryCatch.
  unfold bind at 1. unfold readState at 1. rewrite Hgate.
  unfold bind at 1. unfold ret at 1.
  unfold bind at 1. rewrite fetchLeaderboard_run.
  destruct (outcome fetchLeaderboard net w); reflexivity.
Qed.

Lemma loadInitialData_fetching_stats (net : Network) (w : World) (f : Z) :
  ownFid (context (state w)) = Some f ->
  loadInitialData net w =
    let w1 := {| state := state w;
                 requests := requests w ++ [StatsRequest (Finite f)] |} in
    match outcome (fetchNutStats (Finite f)) net w with
    | inl err => setError (messageOr err "Failed to load data") net w1
    | inr stats =>
        let w2 := after (setUserStats (Some stats)) net w1 in
        let w3 := {| state := state w2;
                     requests := requests w2 ++ [LeaderboardRequest] |} in
        match outcome fetchLeaderboard net w with
        | inr leaderboardData => setLeaderboard leaderboardData net w3
        | inl err => setError (messageOr err "Failed to load data") net w3
        end
    end.
Proof.
  intros Hgate.
  unfold loadInitialData, tryCatch.
  unfold bind at 1. unfold readState at 1. rewrite Hgate.
  unfold bind at 1. unfold bind at 1. rewrite fetchNutStats_run.
  destruct (outcome (fetchNutStats (Finite f)) net w) as [e | stats];
    [reflexivity |].
  cbv zeta.
  unfold setUserStats at 1, modify at 1, after.
  cbn [snd fst state requests].
  unfold bind at 1. rewrite fetchLeaderboard_run.
  rewrite (fetchLeaderboard_outcome net _ w).
  destruct (outcome fetchLeaderboard net w); reflexivity.
Qed.

(** The gate is closed exactly when there is no usable identity or the
    host has not acknowledged the frame. *)
Lemma ownFid_closed (ctx : option FrameContext) :
  identity ctx = None \/ hostAdded ctx = false -> ownFid ctx = None.
Proof.
  destruct ctx as [[a [f |]] |]; cbn; intros [H | H]; try discriminate;
    try reflexivity; subst; try reflexivity.
  now destruct a.
Qed.

(** C8. With no authenticated identity, or with the frame not
    acknowledged as added, a cycle issues exactly one request, the
    leaderboard's: the stats endpoint is never called. *)
Theorem loadInitialData_without_identity (net : Network) (w : World) :
  identity (context (state w)) = None
  \/ hostAdded (context (state w)) = false ->
  requests (after loadInitialData net w)
    = requests w ++ [LeaderboardRequest].
Proof.
  intros Hno. unfold after.
  rewrite (loadInitialData_skipping_stats net w (ownFid_closed _ Hno)).
  destruct (outcome fetchLeaderboard net w); reflexivity.
Qed.

Lemma loadInitialData_without_identity_witness :
  requests (after loadInitialData netUp (fresh initialState))
    = [LeaderboardRequest].
Proof.
  apply (loadInitialData_without_identity netUp (fresh initialState)).
  left. reflexivity.
Defined.

(** The gate in the words of the spec: it is open exactly when the host
    has acknowledged the frame as added and reports an identity whose fid
    is not 0. *)
Lemma ownFid_gate (ctx : option FrameContext) :
  ownFid ctx =
    match hostAdded ctx, identity ctx with
    | true, Some f => if (f =? 0)%Z then None else Some f
    | _, _ => None
    end.
Proof. destruct ctx as [[[] [f |]] |]; reflexivity. Qed.

(** C3, as amended. A cycle runs the stats fetch first, when the frame
    is acknowledged as added and an identity with a fid other than 0 is
    present, and the leaderboard fetch only if the stats fetch was skipped
    or succeeded.  A failing stats fetch ends the cycle: the leaderboard is
    not requested, the error slice takes the message of the [Error]
    thrown, or "Failed to load data" when what was thrown is not an
    [Error], and the stats and leaderboard slices stay as they were.  A
    failing leaderboard fetch sets the error slice in the same way, keeps
    the leaderboard slice, and leaves in place the stats the cycle has
    just applied. *)
Theorem loadInitialData_sequential (net : Network) (w : World) :
  let w' := after loadInitialData net w in
  let failure (err : Thrown) :=
    match err with
    | JsError message => message
    | NotAnError => "Failed to load data"
    end in
  let statsFetch (f : Z) : Thrown + NutStats :=
    match statsEndpoint net (Finite f) with
    | inl thrown => inl thrown
    | inr response =>
        if ok response then json response
        else inl (JsError "Failed to fetch stats")
    end in
  let leaderboardFetch : Thrown + list LeaderboardEntry :=
    match leaderboardEndpoint net with
    | inl thrown => inl thrown
    | inr response =>
        if ok response then json response
        else inl (JsError "Failed to fetch leaderboard")
    end in
  let leaderboardHalf :=
    match leaderboardFetch with
    | inr leaderboardData =>
        leaderboard (state w') = leaderboardData /\
        error (state w') = error (state w)
    | inl err =>
        leaderboard (state w') = leaderboard (state w) /\
        error (state w') = failure err
    end in
  let skipped :=
    requests w' = requests w ++ [LeaderboardRequest] /\
    userStats (state w') = userStats (state w) /\
    leaderboardHalf in
  match hostAdded (context (state w)), identity (context (state w)) with
  | true, Some f =>
      if (f =? 0)%Z then skipped
      else
        match statsFetch f with
        | inr stats =>
            requests w'
              = requests w ++ [StatsRequest (Finite f); LeaderboardRequest] /\
            userStats (state w') = Some stats /\
            leaderboardHalf
        | inl err =>
            requests w' = requests w ++ [StatsRequest (Finite f)] /\
            userStats (state w') = userStats (state w) /\
            leaderboard (state w') = leaderboard (state w) /\
            error (state w') = failure err
        end
  | _, _ => skipped
  end.
Proof.
  cbv zeta. rewrite <- (fetchLeaderboard_reply net w).
  assert (Hskip :
    ownFid (context (state w)) = None ->
    requests (after loadInitialData net w)
      = requests w ++ [LeaderboardRequest] /\
    userStats (state (after loadInitialData net w)) = userStats (state w) /\
    match outcome fetchLeaderboard net w with
    | inr leaderboardData =>
        leaderboard (state (after loadInitialData net w)) = leaderboardData /\
        error (state (after loadInitialData net w)) = error (state w)
    | inl err =>
        leaderboard (state (after loadInitialData net w))
          = leaderboard (state w) /\
        error (state (after loadInitialData net w)) =
          match err with
          | JsError message => message
          | NotAnError => "Failed to load data"
          end
    end).
  { intros Hgate. unfold after.
    rewrite (loadInitialData_skipping_stats net w Hgate). cbv zeta.
    destruct (outcome fetchLeaderboard net w) as [[message |] | l];
      repeat split. }
  pose proof (ownFid_gate (context (state w))) as Hgate.
  destruct (hostAdded (context (state w)));
    [| exact (Hskip Hgate)].
  destruct (identity (context (state w))) as [f |];
    [| exact (Hskip Hgate)].
  destruct (f =? 0)%Z; [exact (Hskip Hgate) |].
  clear Hskip. rewrite <- (fetchNutStats_reply (Finite f) net w).
  unfold after.
  rewrite (loadInitialData_fetching_stats net w f Hgate). cbv zeta.
  destruct (outcome (fetchNutStats (Finite f)) net w) as [[message |] | stats].
  - repeat split.
  - repeat split.
  - destruct (outcome fetchLeaderboard net w) as [[message |] | l]; cbn;
      rewrite <- app_assoc; repeat split.
Qed.

(** C3, as stated, fails when the stats fetch fails: user 7 is signed in,
    the stats endpoint answers with a non-success status, and the cycle
    ends without ever requesting the leaderboard, although that endpoint
    would have answered. *)
Lemma loadInitialData_independent_counterexample :
  let w := fresh (mounted "" "") in
  let w' := after loadInitialData netStatsDown w in
  (exists l, outcome fetchLeaderboard netStatsDown w = inr l) /\
  requests w' = [StatsRequest (Finite 7%Z)] /\
  ~ In LeaderboardRequest (requests w') /\
  leaderboard (state w') = [].
Proof.
  cbv zeta. split; [eexists; reflexivity |].
  split; [reflexivity |]. split; [| reflexivity].
  cbn. intros [H | []]. discriminate H.
Qed.

(** A cycle that completes without a failure never writes the error
    slice: the message it started with is still there. *)
Lemma loadInitialData_success_keeps_error (net : Network) (w : World) :
  (forall e, outcome fetchLeaderboard net w <> inl e) ->
  (forall f e, ownFid (context (state w)) = Some f ->
               outcome (fetchNutStats (Finite f)) net w <> inl e) ->
  error (state (after loadInitialData net w)) = error (state w).
Proof.
  intros Hboard Hstats. unfold after.
  destruct (ownFid (context (state w))) as [f |] eqn:Hgate.
  - rewrite (loadInitialData_fetching_stats net w f Hgate). cbv zeta.
    destruct (outcome (fetchNutStats (Finite f)) net w) as [e | stats] eqn:Hs.
    + now destruct (Hstats f e eq_refl).
    + destruct (outcome fetchLeaderboard net w) as [e | l] eqn:Hl.
      * now destruct (Hboard e).
      * reflexivity.
  - rewrite (loadInitialData_skipping_stats net w Hgate). cbv zeta.
    destruct (outcome fetchLeaderboard net w) as [e | l] eqn:Hl.
    + now destruct (Hboard e).
    + reflexivity.
Qed.

(** C4. The banner shows "Failed to fetch leaderboard" from an earlier
    cycle; the next cycle fetches both the stats and the leaderboard
    successfully and applies them, and the banner still shows the old
    message.  A successful search from the same state clears it. *)
Theorem loadInitialData_leaves_stale_error :
  let w := fresh (mounted "7" "Failed to fetch leaderboard") in
  let w' := after loadInitialData netUp w in
  outcome loadInitialData netUp w = inr tt /\
  userStats (state w') = Some alice /\
  leaderboard (state w') = board /\
  error (state w') = "Failed to fetch leaderboard" /\
  error (state (after handleSearch netUp w)) = "".
Proof. repeat split. Qed.

End Refresh.

(** ** Switching views *)

Section Views.

Local Open Scope list_scope.

Lemma last_cons_default {A} (a : A) (l : list A) (d d' : A) :
  last (a :: l) d = last (a :: l) d'.
Proof.
  revert a. induction l as [| b l IH]; intros a; [reflexivity |].
  change (last (b :: l) d = last (b :: l) d'). apply IH.
Qed.

Lemma clicks_cons (v : ViewState) (rest : list ViewState)
    (net : Network) (w : World) :
  clicks (v :: rest) net w
    = clicks rest net (after (setCurrentView v) net w).
Proof. reflexivity. Qed.

Lemma clicks_run (views : list ViewState) (net : Network) (w : World) :
  outcome (clicks views) net w = inr tt /\
  let w' := after (clicks views) net w in
  requests w' = requests w /\
  currentView (state w') = last views (currentView (state w)) /\
  context (state w') = context (state w) /\
  userStats (state w') = userStats (state w) /\
  leaderboard (state w') = leaderboard (state w) /\
  searchResults (state w') = searchResults (state w) /\
  error (state w') = error (state w).
Proof.
  revert w. induction views as [| v rest IH]; intros w.
  - repeat split.
  - destruct (IH (after (setCurrentView v) net w))
      as (Hout & Hreq & Hview & Hctx & Hus & Hlb & Hsr & Herr).
    cbv zeta in *. unfold outcome in *.
    change (after (clicks (v :: rest)) net w)
      with (after (clicks rest) net (after (setCurrentView v) net w)).
    rewrite clicks_cons.
    repeat split; try assumption.
    rewrite Hview. destruct rest as [| v' rest]; [reflexivity |].
    exact (last_cons_default v' rest _ _).
Qed.

(** C9. The view starts as Stats.  Any sequence of clicks on the three
    view buttons ends on the last view clicked and changes nothing else:
    the own-stats, leaderboard and search-result slices hold what they
    held, no request is issued, and the refresh effect's dependency (the
    context) is untouched, so no cycle is started either. *)
Theorem view_switching_only_changes_view :
  currentView initialState = STATS /\
  forall (views : list ViewState) (net : Network) (w : World),
    let w' := after (clicks views) net w in
    currentView (state w') = last views (currentView (state w)) /\
    userStats (state w') = userStats (state w) /\
    leaderboard (state w') = leaderboard (state w) /\
    searchResults (state w') = searchResults (state w) /\
    requests w' = requests w /\
    refreshDeps (state w') = refreshDeps (state w).
Proof.
  split; [reflexivity |].
  intros views net w.
  destruct (clicks_run views net w) as (_ & Hreq & Hview & Hctx & Hus & Hlb & Hsr & _).
  cbv zeta. unfold refreshDeps. tauto.
Qed.

(** The round trip of the spec: Leaderboard, Search, back to Stats. *)
Example view_round_trip (net : Network) (w : World) :
  let w' := after (clicks [LEADERBOARD; SEARCH; STATS]) net w in
  currentView (state w') = STATS /\
  userStats (state w') = userStats (state w) /\
  leaderboard (state w') = leaderboard (state w) /\
  searchResults (state w') = searchResults (state w) /\
  requests w' = requests w.
Proof. repeat split. Qed.

End Views.

(** * Further properties *)

(** ** The allowance window: bounds and invalid dates *)

Section AllowanceBounds.

Local Open Scope Z_scope.

Lemma remainingAllowance_nonneg_witness :
  exists r,
    calculateDailyAllowance 10 8 (Some (utc 2025 1 1 23)) NaN = Some r
    /\ 0 <= r.
Proof.
  apply (remainingAllowance_nonneg 10 8 (Some (utc 2025 1 1 23)) NaN). lia.
Defined.

Lemma remainingAllowance_le_after_reset_witness : 6 <= 10.
Proof.
  apply (remainingAllowance_le_after_reset 10 8 (utc 2025 1 1 12)
           (utc 2025 1 1 9) 6).
  - lia.
  - vm_compute. discriminate.
  - reflexivity.
Defined.

Lemma HourFromTime_range (t : Z) : 0 <= HourFromTime t <= 23.
Proof.
  unfold HourFromTime. pose proof (Z.mod_pos_bound (t / msPerHour) 24). lia.
Qed.

(** X3. Before the reset hour the result can pass the daily allowance,
    but by no more than the reset hour itself: it never exceeds
    [dailyAllowance + resetHour]. *)
Theorem remainingAllowance_excess_bounded
    (dailyAllowance resetHour : Z) (now lastUpdated : Date) (r : Z) :
  0 <= dailyAllowance -> 0 <= resetHour ->
  calculateDailyAllowance dailyAllowance resetHour now lastUpdated = Some r ->
  r <= dailyAllowance + resetHour.
Proof.
  intros HD HR. unfold calculateDailyAllowance.
  destruct now as [n |]; cbn [getUTCDate getUTCMonth getUTCFullYear
    getUTCHours option_map strictNe orb].
  - match goal with |- context [if ?c then _ else _] => destruct c end.
    + intros [= <-]. lia.
    + cbn [sub mul Math_max]. intros [= <-].
      pose proof (HourFromTime_range n). lia.
  - intros [= <-]. lia.
Qed.

Lemma remainingAllowance_excess_bounded_witness : 15 <= 10 + 8.
Proof.
  apply (remainingAllowance_excess_bounded 10 8 (Some (utc 2025 1 1 3))
           (Some (utc 2025 1 1 1)) 15).
  - lia.
  - lia.
  - reflexivity.
Defined.

(** X4. Stats whose [lastUpdated] is an Invalid Date show the full daily
    allowance, at every time of day: the comparison with the invalid
    reset instant can only come out as different. *)
Theorem remainingAllowance_invalid_lastUpdated
    (dailyAllowance resetHour : Z) (now : Date) :
  calculateDailyAllowance dailyAllowance resetHour now NaN
    = Some dailyAllowance.
Proof.
  unfold calculateDailyAllowance, newDate, NaN. cbn [setUTCHours].
  unfold NaN. cbn [getUTCDate option_map]. unfold strictNe.
  now destruct (getUTCDate now).
Qed.

End AllowanceBounds.

(** ** The two clients *)

Section Clients.

Local Open Scope string_scope.
Local Open Scope list_scope.

(** X5. [fetchNutStats] resolves, with the parsed body, exactly when the
    transport resolved, the response was a success and its body parsed;
    a non-success response fails with "Failed to fetch stats" whatever its
    body.  Either way it sends one request and leaves the component state
    alone. *)
Theorem fetchNutStats_settles (fid : IntegerNumber) (net : Network) (w : World) :
  (forall stats,
     outcome (fetchNutStats fid) net w = inr stats <->
     exists r, statsEndpoint net fid = inr r /\ ok r = true
               /\ json r = inr stats) /\
  (forall r, statsEndpoint net fid = inr r -> ok r = false ->
     outcome (fetchNutStats fid) net w
       = inl (JsError "Failed to fetch stats")) /\
  requests (after (fetchNutStats fid) net w)
    = requests w ++ [StatsRequest fid] /\
  state (after (fetchNutStats fid) net w) = state w.
Proof.
  unfold outcome, after, fetchNutStats, bind, fetch, throw, awaitJson.
  destruct (statsEndpoint net fid) as [e | [[] j]]; cbn.
  - repeat split; try discriminate.
    intros (r & Hr & _); discriminate.
  - repeat split; try discriminate.
    + intros ->. eexists. repeat split.
    + intros (r & [= <-] & _ & Hj). exact Hj.
    + intros r [= <-]. discriminate.
  - repeat split; try discriminate.
    intros (r & [= <-] & Hok & _). discriminate.
Qed.

(** X6. The same for [fetchLeaderboard], with the message "Failed to
    fetch leaderboard". *)
Theorem fetchLeaderboard_settles (net : Network) (w : World) :
  (forall entries,
     outcome fetchLeaderboard net w = inr entries <->
     exists r, leaderboardEndpoint net = inr r /\ ok r = true
               /\ json r = inr entries) /\
  (forall r, leaderboardEndpoint net = inr r -> ok r = false ->
     outcome fetchLeaderboard net w
       = inl (JsError "Failed to fetch leaderboard")) /\
  requests (after fetchLeaderboard net w)
    = requests w ++ [LeaderboardRequest] /\
  state (after fetchLeaderboard net w) = state w.
Proof.
  unfold outcome, after, fetchLeaderboard, bind, fetch, throw, awaitJson.
  destruct (leaderboardEndpoint net) as [e | [[] j]]; cbn.
  - repeat split; try discriminate.
    intros (r & Hr & _); discriminate.
  - repeat split; try discriminate.
    + intros ->. eexists. repeat split.
    + intros (r & [= <-] & _ & Hj). exact Hj.
    + intros r [= <-]. discriminate.
  - repeat split; try discriminate.
    intros (r & [= <-] & Hok & _). discriminate.
Qed.

End Clients.

(** ** The search handler: what it never does *)

Section SearchFrame.

Local Open Scope string_scope.
Local Open Scope list_scope.

(** X7. [handleSearch] never throws: whatever the query and whatever the
    network does, the handler completes normally, having sent at most one
    request, and that one for the stats of the number the query parses
    to. *)
Theorem handleSearch_never_throws (net : Network) (w : World) :
  outcome handleSearch net w = inr tt /\
  (requests (after handleSearch net w) = requests w \/
   (parseInt (searchFid (state w)) <> NotANumber /\
    requests (after handleSearch net w)
      = requests w ++ [StatsRequest (parseInt (searchFid (state w)))])).
Proof.
  unfold outcome, after.
  destruct (isEmpty (searchFid (state w))) eqn:He.
  - unfold handleSearch, tryCatch, bind, readState. rewrite He.
    split; [reflexivity | left; reflexivity].
  - rewrite (handleSearch_run net w He). cbv zeta.
    destruct (parseInt (searchFid (state w))) as [n | negative |] eqn:Hn;
      cbn [isNaN].
    + destruct (outcome (fetchNutStats (Finite n)) net w);
        (split; [reflexivity | right; split; [discriminate | reflexivity]]).
    + destruct (outcome (fetchNutStats (Infinity negative)) net w);
        (split; [reflexivity | right; split; [discriminate | reflexivity]]).
    + split; [reflexivity | left; reflexivity].
Qed.

(** X8. A search writes the search result and the error and nothing
    else: the view, the own stats, the leaderboard, the context, the
    query and the host flags are as before. *)
Theorem handleSearch_frame (net : Network) (w : World) :
  let s' := state (after handleSearch net w) in
  currentView s' = currentView (state w) /\
  userStats s' = userStats (state w) /\
  leaderboard s' = leaderboard (state w) /\
  context s' = context (state w) /\
  searchFid s' = searchFid (state w) /\
  isSDKLoaded s' = isSDKLoaded (state w) /\
  added s' = added (state w) /\
  addFrameResult s' = addFrameResult (state w).
Proof.
  cbv zeta. unfold after.
  destruct (isEmpty (searchFid (state w))) eqn:He.
  - unfold handleSearch, tryCatch, bind, readState. rewrite He.
    repeat split.
  - rewrite (handleSearch_run net w He). cbv zeta.
    destruct (isNaN (parseInt (searchFid (state w))));
      [| destruct (outcome (fetchNutStats (parseInt (searchFid (state w))))
                     net w)];
      repeat split.
Qed.

(** X9. When the query parses to a number and the service answers the
    search with a non-success status, the banner reads "Failed to fetch
    stats", the client's message, and the search result is cleared. *)
Theorem handleSearch_not_ok (net : Network) (w : World)
    (r : Response NutStats) :
  parseInt (searchFid (state w)) <> NotANumber ->
  statsEndpoint net (parseInt (searchFid (state w))) = inr r ->
  ok r = false ->
  error (state (after handleSearch net w)) = "Failed to fetch stats" /\
  searchResults (state (after handleSearch net w)) = None.
Proof.
  intros Hn Hr Hok. unfold after.
  rewrite (handleSearch_run net w (parseInt_nonempty _ Hn)). cbv zeta.
  rewrite (isNaN_false _ Hn).
  rewrite (fetchNutStats_not_ok _ net w r Hr Hok).
  split; reflexivity.
Qed.

Lemma handleSearch_not_ok_witness :
  error (state (after handleSearch netStatsDown
                  (fresh (mounted "42" ""))))
    = "Failed to fetch stats" /\
  searchResults (state (after handleSearch netStatsDown
                          (fresh (mounted "42" "")))) = None.
Proof.
  apply (handleSearch_not_ok netStatsDown (fresh (mounted "42" ""))
           {| ok := false; json := inl NotAnError |});
    [discriminate | reflexivity | reflexivity].
Defined.

(** X10. After a search on a non-empty query, a result on display means
    the banner is clear: the handler never leaves a result together with
    an error. *)
Theorem handleSearch_result_without_error (net : Network) (w : World)
    (results : NutStats) :
  searchFid (state w) <> "" ->
  searchResults (state (after handleSearch net w)) = Some results ->
  error (state (after handleSearch net w)) = "" /\
  outcome (fetchNutStats (parseInt (searchFid (state w)))) net w
    = inr results.
Proof.
  intros Hne.
  assert (He : isEmpty (searchFid (state w)) = false)
    by (destruct (searchFid (state w)); [congruence | reflexivity]).
  unfold after. rewrite (handleSearch_run net w He). cbv zeta.
  destruct (isNaN (parseInt (searchFid (state w)))).
  - cbn. discriminate.
  - destruct (outcome (fetchNutStats (parseInt (searchFid (state w)))) net w)
      as [e | found]; cbn; [discriminate |].
    intros [= ->]. split; reflexivity.
Qed.

Lemma handleSearch_result_without_error_witness :
  error (state (after handleSearch netUp
                  (fresh (mounted "7" "Invalid FID")))) = "" /\
  outcome (fetchNutStats (parseInt "7")) netUp
    (fresh (mounted "7" "Invalid FID")) = inr alice.
Proof.
  apply (handleSearch_result_without_error netUp
           (fresh (mounted "7" "Invalid FID")) alice).
  - discriminate.
  - reflexivity.
Defined.

End SearchFrame.

(** ** Negative identifiers *)

Section NegativeQuery.

Local Open Scope string_scope.
Local Open Scope Z_scope.

Lemma append_empty_r (s : string) : (s ++ "")%string = s.
Proof. induction s as [| c s IH]; [reflexivity | cbn; now rewrite IH]. Qed.

Lemma allDecimal_no_hex (s : string) :
  allDecimal s = true -> hasHexPrefix s = false.
Proof.
  destruct s as [| c [| c2 s]]; intros H.
  - reflexivity.
  - destruct c as [[] [] [] [] [] [] [] []]; reflexivity.
  - cbn [allDecimal] in H. apply andb_prop in H as [_ H].
    apply andb_prop in H as [Hc2 _].
    destruct c2 as [[] [] [] [] [] [] [] []]; try discriminate Hc2;
      destruct c as [[] [] [] [] [] [] [] []]; reflexivity.
Qed.

Lemma parseInt_negative (ds : string) :
  ds <> "" -> allDecimal ds = true ->
  parseInt ("-" ++ ds) = roundToDouble (- decimalValue ds).
Proof.
  intros Hne Hds.
  pose proof (parseInt_leading_decimal "" MinusSign ds "" eq_refl Hne Hds
                eq_refl) as H.
  rewrite append_empty_r in H.
  specialize (H (allDecimal_no_hex ds Hds)). cbn [signFactor] in H.
  replace (- decimalValue ds) with (-1 * decimalValue ds) by lia.
  exact H.
Qed.

Local Close Scope Z_scope.
Local Open Scope list_scope.

(** X11. The handler does not ask for a positive identifier: a minus
    sign followed by decimal digits is searched as the Number value of the
    negative integer it writes, which is that integer itself whenever the
    digits denote at most 2^53. *)
Theorem handleSearch_negative (net : Network) (w : World) (ds : string) :
  searchFid (state w) = ("-" ++ ds)%string ->
  ds <> "" -> allDecimal ds = true ->
  requests (after handleSearch net w)
    = requests w ++ [StatsRequest (roundToDouble (- decimalValue ds)%Z)] /\
  ((decimalValue ds <= 2 ^ 53)%Z ->
   requests (after handleSearch net w)
     = requests w ++ [StatsRequest (Finite (- decimalValue ds)%Z)]).
Proof.
  intros Hq Hne Hds.
  assert (Hparse : parseInt (searchFid (state w))
                   = roundToDouble (- decimalValue ds)%Z)
    by (rewrite Hq; now apply parseInt_negative).
  assert (Hnum : parseInt (searchFid (state w)) <> NotANumber)
    by (rewrite Hparse; apply roundToDouble_number).
  assert (Hreq : requests (after handleSearch net w)
                 = requests w
                   ++ [StatsRequest (roundToDouble (- decimalValue ds)%Z)]).
  { unfold after.
    rewrite (handleSearch_run net w (parseInt_nonempty _ Hnum)). cbv zeta.
    rewrite (isNaN_false _ Hnum), Hparse.
    destruct (outcome (fetchNutStats (roundToDouble (- decimalValue ds)%Z))
                net w); reflexivity. }
  split; [exact Hreq |].
  intros Hsmall. rewrite Hreq. do 3 f_equal.
  apply roundToDouble_exact.
  pose proof (decimalValue_nonneg ds Hds). lia.
Qed.

Lemma handleSearch_negative_witness :
  requests (after handleSearch netUp (fresh (mounted "-15" "")))
    = [StatsRequest (Finite (-15)%Z)] /\
  ((15 <= 2 ^ 53)%Z ->
   requests (after handleSearch netUp (fresh (mounted "-15" "")))
     = [StatsRequest (Finite (-15)%Z)]).
Proof.
  apply (handleSearch_negative netUp (fresh (mounted "-15" "")) "15").
  - reflexivity.
  - discriminate.
  - reflexivity.
Defined.

(** Beyond 2^53 the request is for the rounded number. *)
Example handleSearch_negative_rounds :
  requests (after handleSearch netUp
              (fresh (mounted "-9007199254740993" "")))
    = [StatsRequest (Finite (-9007199254740992)%Z)].
Proof. reflexivity. Qed.

End NegativeQuery.

(** ** The refresh cycle: what it never does, and how cycles compose *)

Section RefreshFrame.

Local Open Scope string_scope.
Local Open Scope list_scope.

Lemma handleSearch_run_empty (net : Network) (w : World) :
  isEmpty (searchFid (state w)) = true -> handleSearch net w = (inr tt, w).
Proof.
  intros He. unfold handleSearch, tryCatch, bind, readState.
  rewrite He. reflexivity.
Qed.

(** X12. A refresh cycle never throws, whatever the network does, and
    what it sends is one of three things: the leaderboard request alone,
    the own-stats request alone, or the own-stats request followed by the
    leaderboard request. *)
Theorem loadInitialData_never_throws (net : Network) (w : World) :
  outcome loadInitialData net w = inr tt /\
  (requests (after loadInitialData net w)
     = requests w ++ [LeaderboardRequest] \/
   exists f,
     ownFid (context (state w)) = Some f /\
     (requests (after loadInitialData net w)
        = requests w ++ [StatsRequest (Finite f)] \/
      requests (after loadInitialData net w)
        = requests w ++ [StatsRequest (Finite f); LeaderboardRequest])).
Proof.
  unfold outcome, after.
  destruct (ownFid (context (state w))) as [f |] eqn:Hgate.
  - rewrite (loadInitialData_fetching_stats net w f Hgate). cbv zeta.
    destruct (outcome (fetchNutStats (Finite f)) net w) as [e | stats].
    + split; [reflexivity |]. right. exists f. split; [reflexivity |].
      left. reflexivity.
    + destruct (outcome fetchLeaderboard net w);
        (split; [reflexivity |]; right; exists f; split; [reflexivity |];
         right; cbn; now rewrite <- app_assoc).
  - rewrite (loadInitialData_skipping_stats net w Hgate). cbv zeta.
    destruct (outcome fetchLeaderboard net w);
      (split; [reflexivity | left; reflexivity]).
Qed.

(** X13. A refresh cycle writes the own stats, the leaderboard and the
    error and nothing else: the search result, the query, the view, the
    context and the host flags are as before. *)
Theorem loadInitialData_frame (net : Network) (w : World) :
  let s' := state (after loadInitialData net w) in
  searchResults s' = searchResults (state w) /\
  searchFid s' = searchFid (state w) /\
  currentView s' = currentView (state w) /\
  context s' = context (state w) /\
  isSDKLoaded s' = isSDKLoaded (state w) /\
  added s' = added (state w) /\
  addFrameResult s' = addFrameResult (state w).
Proof.
  cbv zeta. unfold after.
  destruct (ownFid (context (state w))) as [f |] eqn:Hgate.
  - rewrite (loadInitialData_fetching_stats net w f Hgate). cbv zeta.
    destruct (outcome (fetchNutStats (Finite f)) net w) as [e | stats];
      [| destruct (outcome fetchLeaderboard net w)]; repeat split.
  - rewrite (loadInitialData_skipping_stats net w Hgate). cbv zeta.
    destruct (outcome fetchLeaderboard net w); repeat split.
Qed.

(** X14. Against a network that answers the same way, a second cycle
    changes nothing: the state after two cycles in a row is the state
    after one. *)
Theorem loadInitialData_idempotent (net : Network) (w : World) :
  state (after loadInitialData net (after loadInitialData net w))
    = state (after loadInitialData net w).
Proof.
  unfold after at 2 3.
  destruct (ownFid (context (state w))) as [f |] eqn:Hgate.
  - rewrite (loadInitialData_fetching_stats net w f Hgate). cbv zeta.
    destruct (outcome (fetchNutStats (Finite f)) net w) as [e | stats] eqn:Hs.
    + match goal with |- context [after _ _ (snd (?g _ ?x))] =>
        set (w1 := snd (g net x)) end.
      unfold after.
      rewrite (loadInitialData_fetching_stats net w1 f Hgate). cbv zeta.
      rewrite (fetchNutStats_outcome _ net w1 w), Hs. reflexivity.
    + destruct (outcome fetchLeaderboard net w) as [e | l] eqn:Hl;
        match goal with |- context [after _ _ (snd (?g _ ?x))] =>
          set (w1 := snd (g net x)) end;
        unfold after at 1;
        rewrite (loadInitialData_fetching_stats net w1 f Hgate); cbv zeta;
        rewrite (fetchNutStats_outcome _ net w1 w), Hs,
          (fetchLeaderboard_outcome net w1 w), Hl; reflexivity.
  - rewrite (loadInitialData_skipping_stats net w Hgate). cbv zeta.
    destruct (outcome fetchLeaderboard net w) as [e | l] eqn:Hl;
      match goal with |- context [after _ _ (snd (?g _ ?x))] =>
        set (w1 := snd (g net x)) end;
      unfold after;
      rewrite (loadInitialData_skipping_stats net w1 Hgate); cbv zeta;
      rewrite (fetchLeaderboard_outcome net w1 w), Hl; reflexivity.
Qed.

(** X15. An actor whose fid is 0 is treated as no identity: the
    condition of the gate is falsy, and the cycle fetches the leaderboard
    only. *)
Theorem loadInitialData_fid_zero (net : Network) (w : World)
    (c : FrameContext) :
  context (state w) = Some c -> actor_fid c = Some 0%Z ->
  requests (after loadInitialData net w)
    = requests w ++ [LeaderboardRequest].
Proof.
  intros Hc Hfid.
  assert (Hgate : ownFid (context (state w)) = None)
    by (rewrite Hc; unfold ownFid; rewrite Hfid; now destruct (client_added c)).
  unfold after. rewrite (loadInitialData_skipping_stats net w Hgate).
  destruct (outcome fetchLeaderboard net w); reflexivity.
Qed.

End RefreshFrame.

Section RefreshAndSearch.

Local Open Scope string_scope.
Local Open Scope list_scope.

Lemma loadInitialData_fid_zero_witness :
  requests (after loadInitialData netUp (fresh mountedAsZero))
    = [LeaderboardRequest].
Proof.
  apply (loadInitialData_fid_zero netUp (fresh mountedAsZero)
           {| client_added := true; actor_fid := Some 0%Z |});
    reflexivity.
Defined.

Lemma loadInitialData_keeps_query (net : Network) (w : World) :
  searchFid (state (snd (loadInitialData net w))) = searchFid (state w).
Proof.
  destruct (ownFid (context (state w))) as [f |] eqn:Hgate.
  - rewrite (loadInitialData_fetching_stats net w f Hgate). cbv zeta.
    destruct (outcome (fetchNutStats (Finite f)) net w);
      [| destruct (outcome fetchLeaderboard net w)]; reflexivity.
  - rewrite (loadInitialData_skipping_stats net w Hgate). cbv zeta.
    destruct (outcome fetchLeaderboard net w); reflexivity.
Qed.

(** X16. A cycle that meets no failure and a search do not interfere:
    run in either order they leave the same state, whatever the search
    finds. *)
Theorem loadInitialData_commutes_with_search (net : Network) (w : World) :
  (forall e, outcome fetchLeaderboard net w <> inl e) ->
  (forall f e, ownFid (context (state w)) = Some f ->
               outcome (fetchNutStats (Finite f)) net w <> inl e) ->
  state (after handleSearch net (after loadInitialData net w))
    = state (after loadInitialData net (after handleSearch net w)).
Proof.
  intros Hboard Hstats.
  destruct (outcome fetchLeaderboard net w) as [e | l] eqn:Hl;
    [now destruct (Hboard e) |].
  unfold after at 2 4.
  destruct (isEmpty (searchFid (state w))) eqn:He.
  - (* the search is a no-op on both sides *)
    rewrite (handleSearch_run_empty net w He). cbn [snd].
    match goal with |- context [after handleSearch net ?x] =>
      set (w1 := x) end.
    assert (He1 : isEmpty (searchFid (state w1)) = true)
      by (unfold w1; now rewrite loadInitialData_keeps_query).
    unfold after at 1. rewrite (handleSearch_run_empty net w1 He1).
    reflexivity.
  - rewrite (handleSearch_run net w He). cbv zeta.
    remember (parseInt (searchFid (state w))) as q eqn:Hq.
    destruct (ownFid (context (state w))) as [f |] eqn:Hgate.
    + rewrite (loadInitialData_fetching_stats net w f Hgate). cbv zeta.
      destruct (outcome (fetchNutStats (Finite f)) net w) as [e | stats] eqn:Hs;
        [now destruct (Hstats f e eq_refl) |].
      rewrite Hl.
      destruct (isNaN q) eqn:Hnan;
        [| destruct (outcome (fetchNutStats q) net w) as [e | found]
             eqn:Hfound];
        match goal with
        | |- state (after handleSearch net (snd (?g _ ?x)))
             = state (after loadInitialData net (snd (?h _ ?y))) =>
            set (w1 := snd (g net x)); set (w2 := snd (h net y))
        end;
        unfold after;
        rewrite (handleSearch_run net w1 He), (loadInitialData_fetching_stats
                                                 net w2 f Hgate);
        cbv zeta;
        change (searchFid (state w1)) with (searchFid (state w));
        rewrite <- Hq, Hnan, ?(fetchNutStats_outcome q net w1 w), ?Hfound,
          (fetchNutStats_outcome (Finite f) net w2 w), Hs,
          (fetchLeaderboard_outcome net w2 w), Hl;
        reflexivity.
    + rewrite (loadInitialData_skipping_stats net w Hgate). cbv zeta.
      rewrite Hl.
      destruct (isNaN q) eqn:Hnan;
        [| destruct (outcome (fetchNutStats q) net w) as [e | found]
             eqn:Hfound];
        match goal with
        | |- state (after handleSearch net (snd (?g _ ?x)))
             = state (after loadInitialData net (snd (?h _ ?y))) =>
            set (w1 := snd (g net x)); set (w2 := snd (h net y))
        end;
        unfold after;
        rewrite (handleSearch_run net w1 He), (loadInitialData_skipping_stats
                                                 net w2 Hgate);
        cbv zeta;
        change (searchFid (state w1)) with (searchFid (state w));
        rewrite <- Hq, Hnan, ?(fetchNutStats_outcome q net w1 w), ?Hfound,
          (fetchLeaderboard_outcome net w2 w), Hl;
        reflexivity.
Qed.

Lemma loadInitialData_commutes_with_search_witness :
  state (after handleSearch netUp
           (after loadInitialData netUp (fresh (mounted "abc" ""))))
    = state (after loadInitialData netUp
               (after handleSearch netUp (fresh (mounted "abc" "")))).
Proof.
  apply (loadInitialData_commutes_with_search netUp
           (fresh (mounted "abc" ""))).
  - intros e. discriminate.
  - intros f e _. discriminate.
Defined.

End RefreshAndSearch.

(** ** The host handshake *)

Section Handshake.

Local Open Scope string_scope.
Local Open Scope list_scope.

(** X17. When the add-frame prompt is rejected, the result string ends
    up as "Error: " followed by the error's rendering, whatever the class
    of the error: the two "Not added: ..." messages are written first and
    then overwritten.  When the prompt resolves nothing changes.  Neither
    way does [addFrame] throw or touch another slice. *)
Theorem addFrame_reports_error (net : Network) (w : World) :
  (forall err,
     let w' := after (addFrame (inl err)) net w in
     outcome (addFrame (inl err)) net w = inr tt /\
     addFrameResult (state w') = ("Error: " ++ errorString err)%string /\
     isSDKLoaded (state w') = isSDKLoaded (state w) /\
     context (state w') = context (state w) /\
     currentView (state w') = currentView (state w) /\
     userStats (state w') = userStats (state w) /\
     leaderboard (state w') = leaderboard (state w) /\
     searchFid (state w') = searchFid (state w) /\
     searchResults (state w') = searchResults (state w) /\
     error (state w') = error (state w) /\
     added (state w') = added (state w) /\
     requests w' = requests w) /\
  outcome (addFrame (inr tt)) net w = inr tt /\
  after (addFrame (inr tt)) net w = w.
Proof.
  split; [| split; reflexivity].
  intros [[] message rendering]; repeat split.
Qed.

Lemma onSdkEvents_cons (e : SdkEvent) (events : list SdkEvent)
    (net : Network) (w : World) :
  after (onSdkEvents (e :: events)) net w
    = after (onSdkEvents events) net (after (onSdkEvent e) net w).
Proof. destruct e; reflexivity. Qed.


Lemma onSdkEvent_keeps (e : SdkEvent) (net : Network) (w : World) :
  let w' := after (onSdkEvent e) net w in
  context (state w') = context (state w) /\
  userStats (state w') = userStats (state w) /\
  leaderboard (state w') = leaderboard (state w) /\
  searchResults (state w') = searchResults (state w) /\
  error (state w') = error (state w) /\
  requests w' = requests w.
Proof. destruct e; repeat split. Qed.

Lemma onSdkEvents_keeps (events : list SdkEvent) (net : Network) (w : World) :
  let w' := after (onSdkEvents events) net w in
  context (state w') = context (state w) /\
  userStats (state w') = userStats (state w) /\
  leaderboard (state w') = leaderboard (state w) /\
  searchResults (state w') = searchResults (state w) /\
  error (state w') = error (state w) /\
  requests w' = requests w.
Proof.
  revert w. induction events as [| e events IH]; intros w.
  - repeat split.
  - cbv zeta. rewrite onSdkEvents_cons.
    destruct (IH (after (onSdkEvent e) net w)) as (H1 & H2 & H3 & H4 & H5 & H6).
    destruct (onSdkEvent_keeps e net w) as (K1 & K2 & K3 & K4 & K5 & K6).
    cbv zeta in *.
    rewrite H1, H2, H3, H4, H5, H6. repeat split; assumption.
Qed.

(** X18. The host's events reach the [added] flag and nothing the
    refresh cycle reads: after any sequence of events the context, the
    data slices and the error are unchanged, no request has gone out, and
    the next cycle sends exactly what it would have sent before.  In
    particular a [frameRemoved] event does not stop the own-stats
    fetch. *)
Theorem onSdkEvents_leave_refresh (events : list SdkEvent)
    (net net' : Network) (w : World) :
  let w' := after (onSdkEvents events) net w in
  context (state w') = context (state w) /\
  userStats (state w') = userStats (state w) /\
  leaderboard (state w') = leaderboard (state w) /\
  searchResults (state w') = searchResults (state w) /\
  error (state w') = error (state w) /\
  requests w' = requests w /\
  requests (after loadInitialData net' w')
    = requests (after loadInitialData net' w).
Proof.
  cbv zeta.
  destruct (onSdkEvents_keeps events net w) as (H1 & H2 & H3 & H4 & H5 & H6).
  cbv zeta in *. repeat split; try assumption.
  set (w' := after (onSdkEvents events) net w) in *.
  unfold after.
  destruct (ownFid (context (state w))) as [f |] eqn:Hgate.
  - assert (Hgate' : ownFid (context (state w')) = Some f)
      by now rewrite H1.
    rewrite (loadInitialData_fetching_stats net' w f Hgate),
      (loadInitialData_fetching_stats net' w' f Hgate').
    cbv zeta.
    rewrite (fetchNutStats_outcome _ net' w' w),
      (fetchLeaderboard_outcome net' w' w).
    destruct (outcome (fetchNutStats (Finite f)) net' w);
      [| destruct (outcome fetchLeaderboard net' w)];
      cbn; now rewrite H6.
  - assert (Hgate' : ownFid (context (state w')) = None)
      by now rewrite H1.
    rewrite (loadInitialData_skipping_stats net' w Hgate),
      (loadInitialData_skipping_stats net' w' Hgate').
    cbv zeta. rewrite (fetchLeaderboard_outcome net' w' w).
    destruct (outcome fetchLeaderboard net' w); cbn; now rewrite H6.
Qed.


(** X20. [load] with no context from the host changes nothing.  With a
    context it stores it and copies [client.added] into [added]; the
    add-frame prompt is started only when the frame is not added yet:
    then a rejection ends up in the result string, and in every other case
    the result string is untouched.  No request goes out. *)
Theorem load_stores_context (reply : SdkError + unit)
    (net : Network) (w : World) :
  after (load None reply) net w = w /\
  forall c,
    let w' := after (load (Some c) reply) net w in
    context (state w') = Some c /\
    added (state w') = client_added c /\
    addFrameResult (state w') =
      match client_added c, reply with
      | false, inl err => ("Error: " ++ errorString err)%string
      | _, _ => addFrameResult (state w)
      end /\
    requests w' = requests w.
Proof.
  split; [reflexivity |].
  intros [[] f]; cbv zeta.
  - repeat split.
  - destruct reply as [[[] message rendering] | []]; repeat split.
Qed.

(** X21. The handshake runs once.  The first run of the effect marks the
    SDK as loaded before anything else, so a second run does nothing, also
    when the first one got no context: a missing context is not asked for
    again. *)
Theorem sdkEffect_runs_once (sdkContext sdkContext' : option FrameContext)
    (reply reply' : SdkError + unit) (net : Network) (w : World) :
  let w1 := after (sdkEffect sdkContext reply) net w in
  isSDKLoaded (state w1) = true /\
  after (sdkEffect sdkContext' reply') net w1 = w1.
Proof.
  cbv zeta.
  assert (Hloaded :
    isSDKLoaded (state (after (sdkEffect sdkContext reply) net w)) = true).
  { unfold after, sdkEffect. unfold bind at 1. unfold readState at 1.
    destruct (isSDKLoaded (state w)) eqn:Hl; cbn [negb].
    - exact Hl.
    - destruct sdkContext as [[[] f] |];
        [| destruct reply as [[[] message rendering] | []] |]; reflexivity. }
  split; [exact Hloaded |].
  set (w1 := after (sdkEffect sdkContext reply) net w) in *.
  unfold after, sdkEffect. unfold bind at 1. unfold readState at 1.
  rewrite Hloaded. reflexivity.
Qed.

End Handshake.

(** ** The refresh timer *)

Section Timer.

Local Open Scope Z_scope.

Lemma filter_other_handles (handle : Z) (timers : list (Z * Z)) :
  Forall (fun timer => fst timer < handle) timers ->
  filter (fun timer => negb (fst timer =? handle)) timers = timers.
Proof.
  induction 1 as [| timer timers Hlt _ IH]; [reflexivity |].
  cbn [filter]. destruct (Z.eqb_spec (fst timer) handle); [lia |].
  cbn [negb]. now rewrite IH.
Qed.

(** X22. Setting the refresh effect up and cleaning it up leaves no timer
    behind: the timers are those there were before, and in between one
    cycle has run. *)
Theorem refreshEffect_cleanup (net : Network) (w : World) (sch : Scheduler) :
  wellFormed sch ->
  let running := refreshEffect net (w, sch) in
  let stopped := refreshCleanup (fst running) (snd running) in
  intervals (snd (snd running)) = intervals sch ++ [(fst running, 30000)] /\
  intervals (snd stopped) = intervals sch /\
  fst stopped = after loadInitialData net w.
Proof.
  intros Hwf. cbv zeta. unfold refreshEffect, refreshCleanup, setInterval.
  cbn [fst snd clearInterval intervals nextHandle].
  repeat split.
  rewrite filter_app, (filter_other_handles _ _ Hwf). cbn [filter fst].
  rewrite Z.eqb_refl. cbn [negb]. apply app_nil_r.
Qed.

Lemma refreshEffect_cleanup_witness :
  let running := refreshEffect netUp (fresh initialState, idle) in
  let stopped := refreshCleanup (fst running) (snd running) in
  intervals (snd (snd running)) = [(1, 30000)] /\
  intervals (snd stopped) = [] /\
  fst stopped = after loadInitialData netUp (fresh initialState).
Proof.
  apply (refreshEffect_cleanup netUp (fresh initialState) idle).
  constructor.
Defined.

Lemma rerunRefresh_single (nets : list Network) (interval : Z)
    (w : World) (sch : Scheduler) :
  intervals sch = [(interval, 30000)] ->
  exists interval' w' sch',
    rerunRefresh nets (interval, (w, sch)) = (interval', (w', sch')) /\
    intervals sch' = [(interval', 30000)].
Proof.
  revert interval w sch.
  induction nets as [| net nets IH]; intros interval w sch Hone.
  - now exists interval, w, sch.
  - cbn [rerunRefresh]. unfold refreshCleanup, refreshEffect, setInterval.
    apply IH. cbn [clearInterval intervals nextHandle]. rewrite Hone.
    cbn [filter fst]. rewrite Z.eqb_refl. reflexivity.
Qed.

(** X23. Timers do not pile up.  From a scheduler with no timer, after
    the effect has been set up and then re-run any number of times (React
    cleaning up before each re-run), exactly one timer is active, with a
    period of 30000 ms, and the last cleanup removes it. *)
Theorem rerunRefresh_one_timer (nets : list Network) (net : Network)
    (w : World) :
  let running := rerunRefresh nets (refreshEffect net (w, idle)) in
  intervals (snd (snd running)) = [(fst running, 30000)] /\
  intervals (snd (refreshCleanup (fst running) (snd running))) = [].
Proof.
  cbv zeta.
  destruct (rerunRefresh_single nets 1 (after loadInitialData net w)
              {| nextHandle := 2; intervals := [(1, 30000)] |} eq_refl)
    as (interval & w' & sch' & Hrun & Hone).
  change (refreshEffect net (w, idle))
    with (1, (after loadInitialData net w,
              {| nextHandle := 2; intervals := [(1, 30000)] |})).
  rewrite Hrun. cbn [fst snd refreshCleanup clearInterval intervals].
  rewrite Hone. cbn [filter fst]. rewrite Z.eqb_refl. split; reflexivity.
Qed.

End Timer.

(** ** What is on screen *)

Section Screen.

Local Open Scope string_scope.
Local Open Scope list_scope.

Variables (DAILY_ALLOWANCE ALLOWANCE_RESET_HOUR : Z) (now : Date).

Lemma leaderboardRows_nth (entries : list LeaderboardEntry) :
  forall (index : Z) (i : nat),
    nth_error (leaderboardRows index entries) i =
      option_map
        (fun entry =>
           {| row_rank := (index + Z.of_nat i + 1)%Z;
              row_username := entry_username entry;
              row_totalPoints := totalPoints entry |})
        (nth_error entries i).
Proof.
  induction entries as [| entry entries IH]; intros index i.
  - destruct i; reflexivity.
  - destruct i as [| i]; cbn [leaderboardRows nth_error option_map].
    + now rewrite Z.add_0_r.
    + rewrite IH. destruct (nth_error entries i); cbn [option_map];
        [| reflexivity].
      do 2 f_equal. lia.
Qed.

(** X25. On the Leaderboard view the card lists the entries as fetched,
    one row each and in the same order, and the row at position [i]
    (from 0) carries rank [i + 1]: the component numbers the rows and
    does not sort them. *)
Theorem render_leaderboard_rows (s : State) :
  isSDKLoaded s = true -> currentView s = LEADERBOARD ->
  exists banner rows,
    render DAILY_ALLOWANCE ALLOWANCE_RESET_HOUR now s
      = PageScreen banner None (Some rows) None /\
    List.length rows = List.length (leaderboard s) /\
    forall i,
      nth_error rows i =
        option_map
          (fun entry =>
             {| row_rank := (Z.of_nat i + 1)%Z;
                row_username := entry_username entry;
                row_totalPoints := totalPoints entry |})
          (nth_error (leaderboard s) i).
Proof.
  intros Hloaded Hview. unfold render. rewrite Hloaded, Hview.
  cbn [negb isStats isLeaderboard isSearch].
  eexists. eexists. split; [reflexivity |]. split.
  - generalize 0%Z. induction (leaderboard s) as [| e l IH]; intros index;
      [reflexivity | cbn; now rewrite IH].
  - intros i. now rewrite leaderboardRows_nth.
Qed.

End Screen.

Section ScreenAcrossHandlers.

Local Open Scope string_scope.
Local Open Scope list_scope.

Lemma render_leaderboard_rows_witness :
  exists banner rows,
    render 10 8 (Some (utc 2025 1 1 12))
      (state (after (clicks [LEADERBOARD]) netUp
                (after loadInitialData netUp (fresh (mounted "" "")))))
      = PageScreen banner None (Some rows) None /\
    List.length rows = 2%nat /\
    forall i,
      nth_error rows i =
        option_map
          (fun entry =>
             {| row_rank := (Z.of_nat i + 1)%Z;
                row_username := entry_username entry;
                row_totalPoints := totalPoints entry |})
          (nth_error board i).
Proof.
  apply (render_leaderboard_rows 10 8 (Some (utc 2025 1 1 12))
           (state (after (clicks [LEADERBOARD]) netUp
                     (after loadInitialData netUp (fresh (mounted "" ""))))));
    reflexivity.
Defined.

Lemma clicks_keep_loaded (views : list ViewState) (net : Network)
    (w : World) :
  isSDKLoaded (state (after (clicks views) net w)) = isSDKLoaded (state w).
Proof.
  revert w. induction views as [| v views IH]; intros w; [reflexivity |].
  unfold after. rewrite clicks_cons. apply (IH (after (setCurrentView v) net w)).
Qed.

(** X26. The error banner belongs to no view: once the frame is loaded
    and an error is set, it is on screen after every sequence of view
    switches, with the same message. *)
Theorem render_banner_across_views
    (DAILY_ALLOWANCE ALLOWANCE_RESET_HOUR : Z) (now : Date)
    (views : list ViewState) (net : Network) (w : World) :
  isSDKLoaded (state w) = true -> error (state w) <> "" ->
  exists statsCard leaderboardCard searchCard,
    render DAILY_ALLOWANCE ALLOWANCE_RESET_HOUR now
      (state (after (clicks views) net w))
      = PageScreen (Some (error (state w))) statsCard leaderboardCard
          searchCard.
Proof.
  intros Hloaded Herr.
  destruct (clicks_run views net w) as (_ & _ & _ & _ & _ & _ & _ & He).
  cbv zeta in He.
  unfold render. rewrite clicks_keep_loaded, Hloaded, He. cbn [negb].
  destruct (error (state w)) as [| c rest]; [congruence |].
  cbn [isEmpty]. eauto.
Qed.

Lemma render_banner_across_views_witness :
  exists statsCard leaderboardCard searchCard,
    render 10 8 (Some (utc 2025 1 1 12))
      (state (after (clicks [LEADERBOARD; SEARCH]) netUp
                (fresh (mounted "" "Failed to fetch leaderboard"))))
      = PageScreen (Some "Failed to fetch leaderboard") statsCard
          leaderboardCard searchCard.
Proof.
  apply (render_banner_across_views 10 8 (Some (utc 2025 1 1 12))
           [LEADERBOARD; SEARCH] netUp
           (fresh (mounted "" "Failed to fetch leaderboard"))).
  - reflexivity.
  - discriminate.
Defined.

Lemma cycles_closed_gate (nets : list Network) (w : World) :
  ownFid (context (state w)) = None ->
  userStats (state (cycles nets w)) = userStats (state w) /\
  isSDKLoaded (state (cycles nets w)) = isSDKLoaded (state w) /\
  currentView (state (cycles nets w)) = currentView (state w).
Proof.
  revert w. induction nets as [| net nets IH]; intros w Hgate.
  - repeat split.
  - cbn [cycles].
    assert (Hstep :
      context (state (after loadInitialData net w)) = context (state w) /\
      userStats (state (after loadInitialData net w)) = userStats (state w) /\
      isSDKLoaded (state (after loadInitialData net w))
        = isSDKLoaded (state w) /\
      currentView (state (after loadInitialData net w))
        = currentView (state w)).
    { unfold after. rewrite (loadInitialData_skipping_stats net w Hgate).
      cbv zeta. destruct (outcome fetchLeaderboard net w); repeat split. }
    destruct Hstep as (Hc & Hu & Hl & Hv).
    destruct (IH (after loadInitialData net w)) as (Hu' & Hl' & Hv');
      [now rewrite Hc |].
    rewrite Hu', Hl', Hv', Hu, Hl, Hv. repeat split.
Qed.

(** X27. Without an identity the Stats view stays empty.  If the gate is
    closed and no stats are held, then after any number of refresh cycles,
    whatever the network answers, the Stats view shows no card at all:
    there is no placeholder. *)
Theorem render_stats_empty_without_identity
    (DAILY_ALLOWANCE ALLOWANCE_RESET_HOUR : Z) (now : Date)
    (nets : list Network) (w : World) :
  ownFid (context (state w)) = None -> userStats (state w) = None ->
  isSDKLoaded (state w) = true -> currentView (state w) = STATS ->
  exists banner,
    render DAILY_ALLOWANCE ALLOWANCE_RESET_HOUR now (state (cycles nets w))
      = PageScreen banner None None None.
Proof.
  intros Hgate Hnone Hloaded Hview.
  destruct (cycles_closed_gate nets w Hgate) as (Hu & Hl & Hv).
  unfold render. rewrite Hu, Hl, Hv, Hnone, Hloaded, Hview.
  cbn [negb isStats isLeaderboard isSearch]. eauto.
Qed.

Lemma render_stats_empty_without_identity_witness :
  exists banner,
    render 10 8 (Some (utc 2025 1 1 12))
      (state (cycles [netUp; netStatsDown; netUp] (fresh mountedAsZero)))
      = PageScreen banner None None None.
Proof.
  apply (render_stats_empty_without_identity 10 8 (Some (utc 2025 1 1 12))
           [netUp; netStatsDown; netUp] (fresh mountedAsZero));
    reflexivity.
Defined.

End ScreenAcrossHandlers.
